(** * The progress window of the download manager
    (persepolis/scripts/progress.py)

    A shallow embedding of [ProgressWindow] and [ShutDownThread]: the window
    is a record of the widget state the file reads and writes, every call
    that leaves the file (aria2 RPC, database, notification, dialog, child
    process, thread start) is an event of a per-invocation trace, and the
    answers of the outside world come from an environment record. *)

From stdpp Require Import base strings gmap list pretty.
From Stdlib Require Import ZArith Lia Ascii.

Local Open Scope string_scope.
Local Open Scope Z_scope.
Local Open Scope list_scope.

(** ** Python values that cross the boundary of the file *)

Inductive PyVal :=
| PyNone
| PyBool (b : bool)
| PyInt (z : Z)
| PyStr (s : string).

(** [not(answer)] is [negb (truthy answer)]. *)
Definition truthy (v : PyVal) : bool :=
  match v with
  | PyNone => false
  | PyBool b => b
  | PyInt z => negb (z =? 0)
  | PyStr s => negb (String.eqb s "")
  end.

(** [v == 'literal'] for a string literal on the right. *)
Definition py_eq_str (v : PyVal) (s : string) : bool :=
  match v with
  | PyStr t => String.eqb t s
  | _ => false
  end.

(** [str(v)]. *)
Definition py_str (v : PyVal) : string :=
  match v with
  | PyNone => "None"
  | PyBool true => "True"
  | PyBool false => "False"
  | PyInt z => pretty z
  | PyStr s => s
  end.

(** [s[:-1]]: everything but the last character (empty on the empty string). *)
Fixpoint py_init (s : string) : string :=
  match s with
  | EmptyString => EmptyString
  | String c EmptyString => EmptyString
  | String c rest => String c (py_init rest)
  end.

(** [s[-1]]: the last character; [None] stands for IndexError. *)
Fixpoint py_last (s : string) : option Ascii.ascii :=
  match s with
  | EmptyString => None
  | String c EmptyString => Some c
  | String c rest => py_last rest
  end.

Inductive PyExn := TypeError | KeyError | IndexError | ValueError.

(** Text handed to the notifier: either passed through
    [QCoreApplication.translate(context, source)] or a plain literal. *)
Inductive Text :=
| Tr (context source : string)
| Lit (s : string).

(** ** ShutDownThread *)

Record ShutDownThread := mkShutDownThread {
  thread_gid : string;
  thread_password : option string;
  thread_started : bool
}.

Definition ShutDownThread_init (gid : string) (password : option string)
  : ShutDownThread :=
  mkShutDownThread gid password false.

(** ** Calls that leave the file

    One event per call, in program order. A dialog and the wait on a child
    process carry what they returned. *)

Inductive Event :=
| EvDownloadUnpause (gid : string)
| EvDownloadPause (gid : string)
| EvDownloadStop (gid : string)
| EvLimitSpeed (gid : string) (limit : string)
| EvAria2Version
| EvAria2Disconnected
| EvNotifySend (title message : Text) (time : Z) (kind : string)
| EvUpdateSingleTable (dict : gmap string string)
| EvUpdateAddLinkTable (dicts : list (gmap string string))
| EvSearchGidInAddLinkTable (gid : string)
| EvGetText (title label : string) (result : string * bool)
| EvPopen (argv : list string)
| EvCommunicate (input : string)
| EvWait (status : Z)
| EvThreadStart (t : ShutDownThread)
| EvSetDefaultLocale (locale : string)
| EvTranslatorLoad (filename suffix : string)
| EvInstallTranslator
| EvSettingsSetValue (key : string) (value : Z * Z)
| EvSettingsSync.

(** ** The answers of the outside world

    [getText n] is what the n-th password dialog of one invocation returns,
    [sudo_wait n passwd] the exit status of the n-th [sudo -S] child fed
    [passwd]. [os_type] is [platform.system()]; [OS_WINDOWS] is the constant
    [OS.WINDOWS] of persepolis.constants, which this file only imports. *)

Record Env := mkEnv {
  os_type : string;
  OS_WINDOWS : string;
  downloadUnpause : string -> PyVal;
  downloadPause : string -> PyVal;
  downloadStop : string -> PyVal;
  aria2Version : PyVal;
  getText : nat -> string * bool;
  sudo_wait : nat -> string -> Z;
  settings_locale : PyVal;
  translator_load : string -> bool;
  searchGidInAddLinkTable : string -> option (gmap string PyVal);
  settings_size : option (Z * Z);
  settings_position : option (Z * Z)
}.

(** ** Outcome of a call: it returns, raises, or is still looping when the
    fuel of the model runs out. *)

Inductive Outcome (A : Type) :=
| Returns (a : A)
| Raises (e : PyExn)
| OutOfFuel.

Arguments Returns {A} a.
Arguments Raises {A} e.
Arguments OutOfFuel {A}.

Section Window.

(** The value type of [limit_spinBox] (declared in persepolis.gui.progress_ui,
    outside this file), with Python's [str] and [float] on it. *)
Context {V : Type} `{EqDecision V}.
Variable str_of_value : V -> string.
Variable float_of_string : string -> option V.

(** Which signals have been connected to their slots so far. *)
Record Connections := mkConnections {
  resume_clicked : bool;
  stop_clicked : bool;
  pause_clicked : bool;
  limit_clicked : bool;
  limit_checkBox_toggled : bool;
  after_checkBox_toggled : bool;
  after_clicked : bool;
  after_comboBox_currentIndexChanged : bool;
  limit_comboBox_currentIndexChanged : bool;
  limit_spinBox_valueChanged : bool
}.

(** The widgets of ProgressWindow_Ui this file touches.
    [after_comboBox_count] is the number of items ProgressWindow_Ui put into
    after_comboBox; this file never changes it. *)
Record Widgets := mkWidgets {
  resume_pushButton_icon : string;
  pause_pushButton_icon : string;
  stop_pushButton_icon : string;
  download_progressBar_value : Z;
  limit_frame_enabled : bool;
  limit_checkBox_checked : bool;
  limit_spinBox_value : V;
  limit_comboBox_currentText : string;
  limit_pushButton_enabled : bool;
  after_frame_enabled : bool;
  after_checkBox_checked : bool;
  after_comboBox_currentIndex : Z;
  after_comboBox_count : Z;
  after_pushButton_enabled : bool;
  window_size : Z * Z;
  window_pos : Z * Z;
  window_visible : bool
}.

(** Field updates of [Widgets], one per property the file writes. *)

Definition set_resume_pushButton_icon (x : string) (u : Widgets) : Widgets :=
  mkWidgets x (pause_pushButton_icon u) (stop_pushButton_icon u)
    (download_progressBar_value u) (limit_frame_enabled u)
    (limit_checkBox_checked u) (limit_spinBox_value u)
    (limit_comboBox_currentText u) (limit_pushButton_enabled u)
    (after_frame_enabled u) (after_checkBox_checked u)
    (after_comboBox_currentIndex u) (after_comboBox_count u)
    (after_pushButton_enabled u) (window_size u) (window_pos u)
    (window_visible u).

Definition set_pause_pushButton_icon (x : string) (u : Widgets) : Widgets :=
  mkWidgets (resume_pushButton_icon u) x (stop_pushButton_icon u)
    (download_progressBar_value u) (limit_frame_enabled u)
    (limit_checkBox_checked u) (limit_spinBox_value u)
    (limit_comboBox_currentText u) (limit_pushButton_enabled u)
    (after_frame_enabled u) (after_checkBox_checked u)
    (after_comboBox_currentIndex u) (after_comboBox_count u)
    (after_pushButton_enabled u) (window_size u) (window_pos u)
    (window_visible u).

Definition set_stop_pushButton_icon (x : string) (u : Widgets) : Widgets :=
  mkWidgets (resume_pushButton_icon u) (pause_pushButton_icon u) x
    (download_progressBar_value u) (limit_frame_enabled u)
    (limit_checkBox_checked u) (limit_spinBox_value u)
    (limit_comboBox_currentText u) (limit_pushButton_enabled u)
    (after_frame_enabled u) (after_checkBox_checked u)
    (after_comboBox_currentIndex u) (after_comboBox_count u)
    (after_pushButton_enabled u) (window_size u) (window_pos u)
    (window_visible u).

Definition set_download_progressBar_value (x : Z) (u : Widgets) : Widgets :=
  mkWidgets (resume_pushButton_icon u) (pause_pushButton_icon u)
    (stop_pushButton_icon u) x (limit_frame_enabled u)
    (limit_checkBox_checked u) (limit_spinBox_value u)
    (limit_comboBox_currentText u) (limit_pushButton_enabled u)
    (after_frame_enabled u) (after_checkBox_checked u)
    (after_comboBox_currentIndex u) (after_comboBox_count u)
    (after_pushButton_enabled u) (window_size u) (window_pos u)
    (window_visible u).

Definition set_limit_frame_enabled (x : bool) (u : Widgets) : Widgets :=
  mkWidgets (resume_pushButton_icon u) (pause_pushButton_icon u)
    (stop_pushButton_icon u) (download_progressBar_value u) x
    (limit_checkBox_checked u) (limit_spinBox_value u)
    (limit_comboBox_currentText u) (limit_pushButton_enabled u)
    (after_frame_enabled u) (after_checkBox_checked u)
    (after_comboBox_currentIndex u) (after_comboBox_count u)
    (after_pushButton_enabled u) (window_size u) (window_pos u)
    (window_visible u).

Definition set_limit_checkBox_checked (x : bool) (u : Widgets) : Widgets :=
  mkWidgets (resume_pushButton_icon u) (pause_pushButton_icon u)
    (stop_pushButton_icon u) (download_progressBar_value u)
    (limit_frame_enabled u) x (limit_spinBox_value u)
    (limit_comboBox_currentText u) (limit_pushButton_enabled u)
    (after_frame_enabled u) (after_checkBox_checked u)
    (after_comboBox_currentIndex u) (after_comboBox_count u)
    (after_pushButton_enabled u) (window_size u) (window_pos u)
    (window_visible u).

Definition set_limit_spinBox_value (x : V) (u : Widgets) : Widgets :=
  mkWidgets (resume_pushButton_icon u) (pause_pushButton_icon u)
    (stop_pushButton_icon u) (download_progressBar_value u)
    (limit_frame_enabled u) (limit_checkBox_checked u) x
    (limit_comboBox_currentText u) (limit_pushButton_enabled u)
    (after_frame_enabled u) (after_checkBox_checked u)
    (after_comboBox_currentIndex u) (after_comboBox_count u)
    (after_pushButton_enabled u) (window_size u) (window_pos u)
    (window_visible u).

Definition set_limit_pushButton_enabled (x : bool) (u : Widgets) : Widgets :=
  mkWidgets (resume_pushButton_icon u) (pause_pushButton_icon u)
    (stop_pushButton_icon u) (download_progressBar_value u)
    (limit_frame_enabled u) (limit_checkBox_checked u) (limit_spinBox_value u)
    (limit_comboBox_currentText u) x (after_frame_enabled u)
    (after_checkBox_checked u) (after_comboBox_currentIndex u)
    (after_comboBox_count u) (after_pushButton_enabled u) (window_size u)
    (window_pos u) (window_visible u).

Definition set_after_frame_enabled (x : bool) (u : Widgets) : Widgets :=
  mkWidgets (resume_pushButton_icon u) (pause_pushButton_icon u)
    (stop_pushButton_icon u) (download_progressBar_value u)
    (limit_frame_enabled u) (limit_checkBox_checked u) (limit_spinBox_value u)
    (limit_comboBox_currentText u) (limit_pushButton_enabled u) x
    (after_checkBox_checked u) (after_comboBox_currentIndex u)
    (after_comboBox_count u) (after_pushButton_enabled u) (window_size u)
    (window_pos u) (window_visible u).

Definition set_after_checkBox_checked (x : bool) (u : Widgets) : Widgets :=
  mkWidgets (resume_pushButton_icon u) (pause_pushButton_icon u)
    (stop_pushButton_icon u) (download_progressBar_value u)
    (limit_frame_enabled u) (limit_checkBox_checked u) (limit_spinBox_value u)
    (limit_comboBox_currentText u) (limit_pushButton_enabled u)
    (after_frame_enabled u) x (after_comboBox_currentIndex u)
    (after_comboBox_count u) (after_pushButton_enabled u) (window_size u)
    (window_pos u) (window_visible u).

Definition set_after_comboBox_currentIndex (x : Z) (u : Widgets) : Widgets :=
  mkWidgets (resume_pushButton_icon u) (pause_pushButton_icon u)
    (stop_pushButton_icon u) (download_progressBar_value u)
    (limit_frame_enabled u) (limit_checkBox_checked u) (limit_spinBox_value u)
    (limit_comboBox_currentText u) (limit_pushButton_enabled u)
    (after_frame_enabled u) (after_checkBox_checked u) x
    (after_comboBox_count u) (after_pushButton_enabled u) (window_size u)
    (window_pos u) (window_visible u).

Definition set_after_pushButton_enabled (x : bool) (u : Widgets) : Widgets :=
  mkWidgets (resume_pushButton_icon u) (pause_pushButton_icon u)
    (stop_pushButton_icon u) (download_progressBar_value u)
    (limit_frame_enabled u) (limit_checkBox_checked u) (limit_spinBox_value u)
    (limit_comboBox_currentText u) (limit_pushButton_enabled u)
    (after_frame_enabled u) (after_checkBox_checked u)
    (after_comboBox_currentIndex u) (after_comboBox_count u) x (window_size u)
    (window_pos u) (window_visible u).

Definition set_window_size (x : Z * Z) (u : Widgets) : Widgets :=
  mkWidgets (resume_pushButton_icon u) (pause_pushButton_icon u)
    (stop_pushButton_icon u) (download_progressBar_value u)
    (limit_frame_enabled u) (limit_checkBox_checked u) (limit_spinBox_value u)
    (limit_comboBox_currentText u) (limit_pushButton_enabled u)
    (after_frame_enabled u) (after_checkBox_checked u)
    (after_comboBox_currentIndex u) (after_comboBox_count u)
    (after_pushButton_enabled u) x (window_pos u) (window_visible u).

Definition set_window_pos (x : Z * Z) (u : Widgets) : Widgets :=
  mkWidgets (resume_pushButton_icon u) (pause_pushButton_icon u)
    (stop_pushButton_icon u) (download_progressBar_value u)
    (limit_frame_enabled u) (limit_checkBox_checked u) (limit_spinBox_value u)
    (limit_comboBox_currentText u) (limit_pushButton_enabled u)
    (after_frame_enabled u) (after_checkBox_checked u)
    (after_comboBox_currentIndex u) (after_comboBox_count u)
    (after_pushButton_enabled u) (window_size u) x (window_visible u).

Definition set_window_visible (x : bool) (u : Widgets) : Widgets :=
  mkWidgets (resume_pushButton_icon u) (pause_pushButton_icon u)
    (stop_pushButton_icon u) (download_progressBar_value u)
    (limit_frame_enabled u) (limit_checkBox_checked u) (limit_spinBox_value u)
    (limit_comboBox_currentText u) (limit_pushButton_enabled u)
    (after_frame_enabled u) (after_checkBox_checked u)
    (after_comboBox_currentIndex u) (after_comboBox_count u)
    (after_pushButton_enabled u) (window_size u) (window_pos u) x.

(** [signal.connect(slot)], one per signal. *)

Definition connect_resume_clicked (c : Connections) : Connections :=
  mkConnections true (stop_clicked c) (pause_clicked c) (limit_clicked c)
    (limit_checkBox_toggled c) (after_checkBox_toggled c) (after_clicked c)
    (after_comboBox_currentIndexChanged c)
    (limit_comboBox_currentIndexChanged c) (limit_spinBox_valueChanged c).

Definition connect_stop_clicked (c : Connections) : Connections :=
  mkConnections (resume_clicked c) true (pause_clicked c) (limit_clicked c)
    (limit_checkBox_toggled c) (after_checkBox_toggled c) (after_clicked c)
    (after_comboBox_currentIndexChanged c)
    (limit_comboBox_currentIndexChanged c) (limit_spinBox_valueChanged c).

Definition connect_pause_clicked (c : Connections) : Connections :=
  mkConnections (resume_clicked c) (stop_clicked c) true (limit_clicked c)
    (limit_checkBox_toggled c) (after_checkBox_toggled c) (after_clicked c)
    (after_comboBox_currentIndexChanged c)
    (limit_comboBox_currentIndexChanged c) (limit_spinBox_valueChanged c).

Definition connect_limit_clicked (c : Connections) : Connections :=
  mkConnections (resume_clicked c) (stop_clicked c) (pause_clicked c) true
    (limit_checkBox_toggled c) (after_checkBox_toggled c) (after_clicked c)
    (after_comboBox_currentIndexChanged c)
    (limit_comboBox_currentIndexChanged c) (limit_spinBox_valueChanged c).

Definition connect_limit_checkBox_toggled (c : Connections) : Connections :=
  mkConnections (resume_clicked c) (stop_clicked c) (pause_clicked c)
    (limit_clicked c) true (after_checkBox_toggled c) (after_clicked c)
    (after_comboBox_currentIndexChanged c)
    (limit_comboBox_currentIndexChanged c) (limit_spinBox_valueChanged c).

Definition connect_after_checkBox_toggled (c : Connections) : Connections :=
  mkConnections (resume_clicked c) (stop_clicked c) (pause_clicked c)
    (limit_clicked c) (limit_checkBox_toggled c) true (after_clicked c)
    (after_comboBox_currentIndexChanged c)
    (limit_comboBox_currentIndexChanged c) (limit_spinBox_valueChanged c).

Definition connect_after_clicked (c : Connections) : Connections :=
  mkConnections (resume_clicked c) (stop_clicked c) (pause_clicked c)
    (limit_clicked c) (limit_checkBox_toggled c) (after_checkBox_toggled c)
    true (after_comboBox_currentIndexChanged c)
    (limit_comboBox_currentIndexChanged c) (limit_spinBox_valueChanged c).

Definition connect_after_comboBox_currentIndexChanged (c : Connections) : Connections :=
  mkConnections (resume_clicked c) (stop_clicked c) (pause_clicked c)
    (limit_clicked c) (limit_checkBox_toggled c) (after_checkBox_toggled c)
    (after_clicked c) true (limit_comboBox_currentIndexChanged c)
    (limit_spinBox_valueChanged c).

Definition connect_limit_comboBox_currentIndexChanged (c : Connections) : Connections :=
  mkConnections (resume_clicked c) (stop_clicked c) (pause_clicked c)
    (limit_clicked c) (limit_checkBox_toggled c) (after_checkBox_toggled c)
    (after_clicked c) (after_comboBox_currentIndexChanged c) true
    (limit_spinBox_valueChanged c).

Definition connect_limit_spinBox_valueChanged (c : Connections) : Connections :=
  mkConnections (resume_clicked c) (stop_clicked c) (pause_clicked c)
    (limit_clicked c) (limit_checkBox_toggled c) (after_checkBox_toggled c)
    (after_clicked c) (after_comboBox_currentIndexChanged c)
    (limit_comboBox_currentIndexChanged c) true.

Definition no_connections : Connections :=
  mkConnections false false false false false false false false false false.

(** The main window, as far as this file uses it as an object: its pool of
    threads. Its databases are reached through events. *)
Record MainWindow := mkMainWindow {
  threadPool : list ShutDownThread
}.

Record ProgressWindow := mkProgressWindow {
  parent : MainWindow;
  gid : string;
  status : PyVal;
  ui : Widgets;
  connections : Connections
}.

(** ** A state and trace monad over the window *)

Definition M (A : Type) : Type :=
  ProgressWindow -> Outcome A * ProgressWindow * list Event.

Definition ret {A} (a : A) : M A := fun w => (Returns a, w, []).

Definition bind {A B} (m : M A) (f : A -> M B) : M B :=
  fun w =>
    match m w with
    | (Returns a, w1, t1) =>
        match f a w1 with
        | (o, w2, t2) => (o, w2, t1 ++ t2)
        end
    | (Raises e, w1, t1) => (Raises e, w1, t1)
    | (OutOfFuel, w1, t1) => (OutOfFuel, w1, t1)
    end.

Definition emit (e : Event) : M unit := fun w => (Returns tt, w, [e]).
Definition raise {A} (e : PyExn) : M A := fun w => (Raises e, w, []).
Definition out_of_fuel {A} : M A := fun w => (OutOfFuel, w, []).
Definition get : M ProgressWindow := fun w => (Returns w, w, []).
Definition put (w : ProgressWindow) : M unit := fun _ => (Returns tt, w, []).

(** The window with its widgets, its connections or the parent's thread
    pool replaced. *)
Definition with_ui (f : Widgets -> Widgets) (w : ProgressWindow)
  : ProgressWindow :=
  mkProgressWindow (parent w) (gid w) (status w) (f (ui w)) (connections w).

Definition with_connections (f : Connections -> Connections)
  (w : ProgressWindow) : ProgressWindow :=
  mkProgressWindow (parent w) (gid w) (status w) (ui w) (f (connections w)).

Definition with_threadPool (pool : list ShutDownThread) (w : ProgressWindow)
  : ProgressWindow :=
  mkProgressWindow (mkMainWindow pool) (gid w) (status w) (ui w)
    (connections w).

Definition modify_ui (f : Widgets -> Widgets) : M unit :=
  fun w => (Returns tt, with_ui f w, []).

Definition connect (f : Connections -> Connections) : M unit :=
  fun w => (Returns tt, with_connections f w, []).

Definition set_threadPool (pool : list ShutDownThread) : M unit :=
  fun w => (Returns tt, with_threadPool pool w, []).

Notation "x <- y ;; z" := (bind y (fun x => z))
  (at level 20, y at level 99, z at level 200, only parsing).
Notation "y ;;; z" := (bind y (fun _ => z))
  (at level 100, z at level 200, only parsing, right associativity).

Variable env : Env.

(** ** External calls: the call is logged, the answer comes from [env] *)

Definition download_downloadUnpause (g : string) : M PyVal :=
  emit (EvDownloadUnpause g) ;;; ret (downloadUnpause env g).

Definition download_downloadPause (g : string) : M PyVal :=
  emit (EvDownloadPause g) ;;; ret (downloadPause env g).

Definition download_downloadStop (g : string) : M PyVal :=
  emit (EvDownloadStop g) ;;; ret (downloadStop env g).

Definition download_aria2Version : M PyVal :=
  emit EvAria2Version ;;; ret (aria2Version env).

Definition download_limitSpeed (g limit : string) : M unit :=
  emit (EvLimitSpeed g limit).

Definition parent_aria2Disconnected : M unit := emit EvAria2Disconnected.

Definition notifySend (title message : Text) (time : Z) (kind : string)
  : M unit :=
  emit (EvNotifySend title message time kind).

Definition temp_db_updateSingleTable (dict : gmap string string) : M unit :=
  emit (EvUpdateSingleTable dict).

Definition persepolis_db_updateAddLinkTable (dicts : list (gmap string string))
  : M unit :=
  emit (EvUpdateAddLinkTable dicts).

Definition QInputDialog_getText (n : nat) (title label : string)
  : M (string * bool) :=
  emit (EvGetText title label (getText env n)) ;;; ret (getText env n).

(** [subprocess.Popen(['sudo', '-S', 'echo', 'hello'], ...)], then
    [pipe.communicate(passwd.encode())] and [pipe.wait()]. *)
Definition sudo_check (n : nat) (passwd : string) : M Z :=
  emit (EvPopen ["sudo"; "-S"; "echo"; "hello"]) ;;;
  emit (EvCommunicate passwd) ;;;
  emit (EvWait (sudo_wait env n passwd)) ;;;
  ret (sudo_wait env n passwd).

Definition ui_tr : string := "progress_src_ui_tr".

(** ** ProgressWindow.resumePushButtonPressed *)

Definition resumePushButtonPressed : M unit :=
  self <- get ;;
  if py_eq_str (status self) "paused" then
    answer <- download_downloadUnpause (gid self) ;;
    if negb (truthy answer) then
      version_answer <- download_aria2Version ;;
      if py_eq_str version_answer "did not respond" then
        parent_aria2Disconnected ;;;
        notifySend (Tr ui_tr "Aria2 disconnected!")
          (Tr ui_tr "Persepolis is trying to connect! be patient!")
          10000 "warning"
      else
        notifySend (Tr ui_tr "Aria2 did not respond!")
          (Tr ui_tr "Please try again.") 10000 "warning"
    else ret tt
  else ret tt.

(** ** ProgressWindow.pausePushButtonPressed *)

Definition pausePushButtonPressed : M unit :=
  self <- get ;;
  if py_eq_str (status self) "downloading" then
    answer <- download_downloadPause (gid self) ;;
    if negb (truthy answer) then
      version_answer <- download_aria2Version ;;
      if py_eq_str version_answer "did not respond" then
        parent_aria2Disconnected ;;;
        _ <- download_downloadStop (gid self) ;;
        notifySend (Lit "Aria2 disconnected!")
          (Lit "Persepolis is trying to connect! be patient!")
          10000 "warning"
      else
        notifySend (Tr ui_tr "Aria2 did not respond!")
          (Tr ui_tr "Try again!") 10000 "critical"
    else ret tt
  else ret tt.

(** The dictionary [{'gid': self.gid, 'shutdown': 'canceled'}]. *)
Definition shutdown_canceled_dict (g : string) : gmap string string :=
  <["gid" := g]> (<["shutdown" := "canceled"]> ∅).

(** ** ProgressWindow.stopPushButtonPressed *)

Definition stopPushButtonPressed : M unit :=
  self <- get ;;
  let download_dict := shutdown_canceled_dict (gid self) in
  temp_db_updateSingleTable download_dict ;;;
  answer <- download_downloadStop (gid self) ;;
  if py_eq_str answer "None" then
    version_answer <- download_aria2Version ;;
    if py_eq_str version_answer "did not respond" then
      parent_aria2Disconnected ;;;
      notifySend (Tr ui_tr "Aria2 disconnected!")
        (Tr ui_tr "Persepolis is trying to connect! be patient!")
        10000 "warning"
    else ret tt
  else ret tt.

(** The dictionary [{'gid': self.gid, 'limit_value': value}]. *)
Definition limit_value_dict (g value : string) : gmap string string :=
  <["gid" := g]> (<["limit_value" := value]> ∅).

(** ** ProgressWindow.limitCheckBoxToggled *)

Definition limitCheckBoxToggled : M unit :=
  self <- get ;;
  if limit_checkBox_checked (ui self) then
    modify_ui (set_limit_frame_enabled true) ;;;
    modify_ui (set_limit_pushButton_enabled true)
  else
    modify_ui (set_limit_frame_enabled false) ;;;
    if negb (py_eq_str (status self) "scheduled") then
      download_limitSpeed (gid self) "0"
    else
      let add_link_dictionary := limit_value_dict (gid self) "0" in
      persepolis_db_updateAddLinkTable [add_link_dictionary].

(** ** ProgressWindow.limitComboBoxChanged, afterComboBoxChanged *)

Definition limitComboBoxChanged : M unit :=
  modify_ui (set_limit_pushButton_enabled true).

Definition afterComboBoxChanged : M unit :=
  modify_ui (set_after_pushButton_enabled true).

(** ** ProgressWindow.afterCheckBoxToggled *)

Definition afterCheckBoxToggled : M unit :=
  self <- get ;;
  if after_checkBox_checked (ui self) then
    modify_ui (set_after_frame_enabled true)
  else
    modify_ui (set_after_frame_enabled false) ;;;
    let download_dict := shutdown_canceled_dict (gid self) in
    temp_db_updateSingleTable download_dict.

(** ** Qt setters that emit a signal

    A Qt setter stores the new value and, when the value changed, emits the
    widget's signal; a slot runs when it has been connected by then. *)

Definition limit_checkBox_setChecked (b : bool) : M unit :=
  self <- get ;;
  if Bool.eqb (limit_checkBox_checked (ui self)) b then ret tt
  else
    modify_ui (set_limit_checkBox_checked b) ;;;
    if limit_checkBox_toggled (connections self) then limitCheckBoxToggled
    else ret tt.

Definition after_checkBox_setChecked (b : bool) : M unit :=
  self <- get ;;
  if Bool.eqb (after_checkBox_checked (ui self)) b then ret tt
  else
    modify_ui (set_after_checkBox_checked b) ;;;
    if after_checkBox_toggled (connections self) then afterCheckBoxToggled
    else ret tt.

(** [QComboBox.setCurrentIndex(i)]: an index that has no item leaves the
    box without a current item, index -1. *)
Definition after_comboBox_setCurrentIndex (i : Z) : M unit :=
  self <- get ;;
  let index :=
    if (0 <=? i) && (i <? after_comboBox_count (ui self)) then i else -1 in
  if after_comboBox_currentIndex (ui self) =? index then ret tt
  else
    modify_ui (set_after_comboBox_currentIndex index) ;;;
    if after_comboBox_currentIndexChanged (connections self)
    then afterComboBoxChanged
    else ret tt.

Definition limit_spinBox_setValue (v : V) : M unit :=
  self <- get ;;
  if bool_decide (limit_spinBox_value (ui self) = v) then ret tt
  else
    modify_ui (set_limit_spinBox_value v) ;;;
    if limit_spinBox_valueChanged (connections self)
    then limitComboBoxChanged
    else ret tt.

(** ** ProgressWindow.afterPushButtonPressed *)

(** ['Wrong Password!\nPlease try again.'] *)
Definition wrong_password_label : string :=
  "Wrong Password!" +:+ String "010"%char "Please try again.".

(** [self.parent.threadPool.append(t)] *)
Definition threadPool_append (t : ShutDownThread) : M unit :=
  self <- get ;;
  set_threadPool (threadPool (parent self) ++ [t]).

(** [self.parent.threadPool[-1].start()]: the last thread of the pool is
    marked started in place. *)
Definition threadPool_last_start : M unit :=
  self <- get ;;
  let pool := threadPool (parent self) in
  match last pool with
  | None => raise IndexError
  | Some t =>
      let t' := mkShutDownThread (thread_gid t) (thread_password t) true in
      set_threadPool (<[ (length pool - 1)%nat := t' ]> pool) ;;;
      emit (EvThreadStart t')
  end.

(** The [while answer != 0] loop. [n] counts the dialogs shown so far; one
    unit of fuel is one iteration. *)
Fixpoint retry_loop (fuel : nat) (n : nat) (passwd : string) (ok : bool)
  (answer : Z) : M (string * bool) :=
  if negb (answer =? 0) then
    match fuel with
    | O => out_of_fuel
    | S fuel' =>
        r <- QInputDialog_getText n "PassWord" wrong_password_label ;;
        if r.2 then
          answer' <- sudo_check n r.1 ;;
          retry_loop fuel' (S n) r.1 r.2 answer'
        else
          ret (r.1, false)
    end
  else ret (passwd, ok).

Definition afterPushButtonPressed (fuel : nat) : M unit :=
  modify_ui (set_after_pushButton_enabled false) ;;;
  self <- get ;;
  if negb (String.eqb (os_type env) (OS_WINDOWS env)) then
    r <- QInputDialog_getText 0 "PassWord" "Please enter root password:" ;;
    if r.2 then
      answer <- sudo_check 0 r.1 ;;
      r' <- retry_loop fuel 1 r.1 r.2 answer ;;
      if r'.2 then
        let shutdown_enable := ShutDownThread_init (gid self) (Some r'.1) in
        threadPool_append shutdown_enable ;;;
        threadPool_last_start
      else
        after_checkBox_setChecked false
    else
      after_checkBox_setChecked false
  else
    let shutdown_enable := ShutDownThread_init (gid self) None in
    threadPool_append shutdown_enable ;;;
    threadPool_last_start.

(** ** ProgressWindow.limitPushButtonPressed *)

Definition limitPushButtonPressed : M unit :=
  modify_ui (set_limit_pushButton_enabled false) ;;;
  self <- get ;;
  let limit_value :=
    if String.eqb (limit_comboBox_currentText (ui self)) "KiB/s"
    then str_of_value (limit_spinBox_value (ui self)) +:+ "K"
    else str_of_value (limit_spinBox_value (ui self)) +:+ "M" in
  if negb (py_eq_str (status self) "scheduled") then
    download_limitSpeed (gid self) limit_value
  else
    let add_link_dictionary := limit_value_dict (gid self) limit_value in
    persepolis_db_updateAddLinkTable [add_link_dictionary].

(** ** ProgressWindow.changeIcon *)

Definition changeIcon (icons : PyVal) : M unit :=
  let icons := ":/" +:+ py_str icons +:+ "/" in
  modify_ui (set_resume_pushButton_icon (icons +:+ "play")) ;;;
  modify_ui (set_pause_pushButton_icon (icons +:+ "pause")) ;;;
  modify_ui (set_stop_pushButton_icon (icons +:+ "stop")).

(** ** ProgressWindow.closeEvent, keyPressEvent *)

Definition closeEvent : M unit :=
  self <- get ;;
  emit (EvSettingsSetValue "ProgressWindow/size" (window_size (ui self))) ;;;
  emit (EvSettingsSetValue "ProgressWindow/position" (window_pos (ui self))) ;;;
  emit EvSettingsSync ;;;
  modify_ui (set_window_visible false).

(** [self.close()]: Qt delivers the close event to [closeEvent] and hides
    the window, the event being left accepted. *)
Definition close : M unit :=
  closeEvent ;;; modify_ui (set_window_visible false).

Definition Key_Escape : Z := 16777216.

Definition keyPressEvent (key : Z) : M unit :=
  if key =? Key_Escape then close else ret tt.

(** ** ProgressWindow.__init__

    [ui0] is the widget state left by [ProgressWindow_Ui.__init__]. *)

Definition restore_limit (limit : string) : M unit :=
  if negb (String.eqb limit "0") then
    let limit_number := py_init limit in
    match py_last limit with
    | None => raise IndexError
    | Some limit_unit =>
        match float_of_string limit_number with
        | None => raise ValueError
        | Some x =>
            limit_spinBox_setValue x ;;;
            (if Ascii.eqb limit_unit "K"%char
             then after_comboBox_setCurrentIndex 0
             else after_comboBox_setCurrentIndex 1) ;;;
            limit_checkBox_setChecked true
        end
    end
  else ret tt.

Definition init_body : M unit :=
  self <- get ;;
  connect connect_resume_clicked ;;;
  connect connect_stop_clicked ;;;
  connect connect_pause_clicked ;;;
  modify_ui (set_download_progressBar_value 0) ;;;
  connect connect_limit_clicked ;;;
  modify_ui (set_limit_frame_enabled false) ;;;
  connect connect_limit_checkBox_toggled ;;;
  modify_ui (set_after_frame_enabled false) ;;;
  connect connect_after_checkBox_toggled ;;;
  connect connect_after_clicked ;;;
  let locale := py_str (settings_locale env) in
  emit (EvSetDefaultLocale locale) ;;;
  emit (EvTranslatorLoad (":/translations/locales/ui_" +:+ locale) "ts") ;;;
  (if translator_load env (":/translations/locales/ui_" +:+ locale)
   then emit EvInstallTranslator else ret tt) ;;;
  emit (EvSearchGidInAddLinkTable (gid self)) ;;;
  match searchGidInAddLinkTable env (gid self) with
  | None => raise TypeError
  | Some add_link_dictionary =>
      match add_link_dictionary !! "limit_value" with
      | None => raise KeyError
      | Some v =>
          restore_limit (py_str v) ;;;
          connect connect_after_comboBox_currentIndexChanged ;;;
          connect connect_limit_comboBox_currentIndexChanged ;;;
          connect connect_limit_spinBox_valueChanged ;;;
          modify_ui (set_window_size (default (595, 274) (settings_size env))) ;;;
          modify_ui
            (set_window_pos (default (300, 300) (settings_position env)))
      end
  end.

Definition ProgressWindow_init (parent0 : MainWindow) (gid0 : string)
  (ui0 : Widgets) : Outcome unit * ProgressWindow * list Event :=
  init_body (mkProgressWindow parent0 gid0 PyNone ui0 no_connections).

(** ** The methods of ProgressWindow after construction *)

Inductive Method :=
| ResumePushButtonPressed
| PausePushButtonPressed
| StopPushButtonPressed
| LimitCheckBoxToggled
| LimitComboBoxChanged
| AfterComboBoxChanged
| AfterCheckBoxToggled
| AfterPushButtonPressed
| LimitPushButtonPressed
| ChangeIcon (icons : PyVal)
| KeyPressEvent (key : Z)
| CloseEvent.

Definition call (fuel : nat) (m : Method) : M unit :=
  match m with
  | ResumePushButtonPressed => resumePushButtonPressed
  | PausePushButtonPressed => pausePushButtonPressed
  | StopPushButtonPressed => stopPushButtonPressed
  | LimitCheckBoxToggled => limitCheckBoxToggled
  | LimitComboBoxChanged => limitComboBoxChanged
  | AfterComboBoxChanged => afterComboBoxChanged
  | AfterCheckBoxToggled => afterCheckBoxToggled
  | AfterPushButtonPressed => afterPushButtonPressed fuel
  | LimitPushButtonPressed => limitPushButtonPressed
  | ChangeIcon icons => changeIcon icons
  | KeyPressEvent key => keyPressEvent key
  | CloseEvent => closeEvent
  end.

End Window.

Arguments Widgets : clear implicits.
Arguments ProgressWindow : clear implicits.
Arguments M : clear implicits.

(** ** What a run gives back *)

Definition outcome_of {S A} (r : Outcome A * S * list Event) : Outcome A :=
  r.1.1.
Definition window_of {S A} (r : Outcome A * S * list Event) : S := r.1.2.
Definition trace_of {S A} (r : Outcome A * S * list Event) : list Event :=
  r.2.

(** ** Reading a trace *)

Definition unpause_call (e : Event) : option string :=
  match e with EvDownloadUnpause g => Some g | _ => None end.

Definition pause_call (e : Event) : option string :=
  match e with EvDownloadPause g => Some g | _ => None end.

Definition stop_call (e : Event) : option string :=
  match e with EvDownloadStop g => Some g | _ => None end.

Definition thread_start (e : Event) : option ShutDownThread :=
  match e with EvThreadStart t => Some t | _ => None end.

Definition dialog_shown (e : Event) : option (string * bool) :=
  match e with EvGetText _ _ r => Some r | _ => None end.

(** Calls to the aria2 daemon. *)
Definition is_rpc (e : Event) : bool :=
  match e with
  | EvDownloadUnpause _ | EvDownloadPause _ | EvDownloadStop _
  | EvLimitSpeed _ _ | EvAria2Version => true
  | _ => false
  end.

(** Writes to one of the main window's databases. *)
Definition is_db_write (e : Event) : bool :=
  match e with
  | EvUpdateSingleTable _ | EvUpdateAddLinkTable _ => true
  | _ => false
  end.

(** The event concerns download task [g], when it concerns a task at all. *)
Definition targets (g : string) (e : Event) : Prop :=
  match e with
  | EvDownloadUnpause g' | EvDownloadPause g' | EvDownloadStop g'
  | EvLimitSpeed g' _ | EvSearchGidInAddLinkTable g' => g' = g
  | EvUpdateSingleTable d => d !! "gid" = Some g
  | EvUpdateAddLinkTable ds => Forall (fun d => d !! "gid" = Some g) ds
  | EvThreadStart t => thread_gid t = g
  | _ => True
  end.

(** ** Sequences of steps on one window

    Between two calls the main window may assign [status] (the file itself
    assigns it only in the constructor). A run stops at the first call that
    does not return. *)

Inductive Step :=
| Call (env : Env) (fuel : nat) (m : Method)
| SetStatus (v : PyVal).

Definition set_status {V} (v : PyVal) (w : ProgressWindow V)
  : ProgressWindow V :=
  mkProgressWindow (parent w) (gid w) v (ui w) (connections w).

Fixpoint run {V} (str_of_value : V -> string) (steps : list Step)
  (w : ProgressWindow V) : Outcome unit * ProgressWindow V * list Event :=
  match steps with
  | [] => (Returns tt, w, [])
  | SetStatus v :: rest => run str_of_value rest (set_status v w)
  | Call env fuel m :: rest =>
      match call str_of_value env fuel m w with
      | (Returns _, w1, t1) =>
          match run str_of_value rest w1 with
          | (o, w2, t2) => (o, w2, t1 ++ t2)
          end
      | r => r
      end
  end.

(** ** The specification's wording, to compare the code with *)

(** The limit value: the spin box value, then 'K' when the unit selector
    reads 'KiB/s' and 'M' otherwise. *)
Definition spec_limit_value {V} (str_of_value : V -> string)
  (w : ProgressWindow V) : string :=
  str_of_value (limit_spinBox_value (ui w)) +:+
  (if decide (limit_comboBox_currentText (ui w) = "KiB/s") then "K" else "M").

(** The password dialogue. Prompt [n] is answered with [entered env n];
    it asks again when the dialog was confirmed and sudo rejected the
    password. *)
Definition entered (env : Env) (n : nat) : string := (getText env n).1.
Definition confirmed (env : Env) (n : nat) : bool := (getText env n).2.
Definition sudo_accepts (env : Env) (n : nat) : bool :=
  sudo_wait env n (entered env n) =? 0.
Definition asks_again (env : Env) (n : nat) : bool :=
  confirmed env n && negb (sudo_accepts env n).

(** Prompt [n] is the first one that is cancelled, or the first one whose
    password sudo accepts. *)
Definition cancelled_at (env : Env) (n : nat) : Prop :=
  (forall k, (k < n)%nat -> asks_again env k = true) /\
  confirmed env n = false.

Definition accepted_at (env : Env) (n : nat) : Prop :=
  (forall k, (k < n)%nat -> asks_again env k = true) /\
  confirmed env n = true /\ sudo_accepts env n = true.

Definition prompt_label (n : nat) : string :=
  match n with
  | O => "Please enter root password:"
  | S _ => wrong_password_label
  end.

(** What prompt [n] leaves in the trace: the dialog and, when it was
    confirmed, the sudo child. *)
Definition attempt_events (env : Env) (n : nat) : list Event :=
  EvGetText "PassWord" (prompt_label n) (getText env n) ::
  (if confirmed env n then
     [EvPopen ["sudo"; "-S"; "echo"; "hello"];
      EvCommunicate (entered env n);
      EvWait (sudo_wait env n (entered env n))]
   else []).

(** The prompts [m], [m+1], ..., [m+count-1]. *)
Fixpoint attempts_from (env : Env) (m count : nat) : list Event :=
  match count with
  | O => []
  | S c => attempt_events env m ++ attempts_from env (S m) c
  end.

(** Unfolds the monad and the logged calls of a handler body. *)
Ltac step_handler :=
  cbv [bind ret emit get raise modify_ui set_threadPool
       download_downloadUnpause download_downloadPause download_downloadStop
       download_aria2Version download_limitSpeed parent_aria2Disconnected
       notifySend temp_db_updateSingleTable persepolis_db_updateAddLinkTable
       QInputDialog_getText sudo_check
       outcome_of window_of trace_of]; cbn.

(** The window once [after_pushButton] has been disabled, as
    afterPushButtonPressed does first. *)
Definition button_off {V} (w : ProgressWindow V) : ProgressWindow V :=
  with_ui (set_after_pushButton_enabled false) w.

(** Unfolds the constructor down to its calls. *)
Ltac run_constructor :=
  cbv beta iota zeta delta
    [ProgressWindow_init init_body bind ret emit get connect modify_ui raise].

(** Runs [threadPool.append(t)] followed by [threadPool[-1].start()]. *)
Ltac start_last_thread :=
  unfold threadPool_append, threadPool_last_start; step_handler;
  rewrite last_snoc; step_handler;
  rewrite length_app, insert_app_r_alt by (cbn; lia);
  match goal with
  | |- context [(length ?l + length [?t] - 1 - length ?l)%nat] =>
      replace (length l + length [t] - 1 - length l)%nat with 0%nat
        by (cbn; lia)
  end.

(** ** A concrete window and concrete environments, to run the model on

    The spin box holds an integer here, printed and parsed in decimal. *)

Definition sample_str (v : Z) : string := pretty v.

Definition sample_float (s : string) : option Z :=
  if String.eqb s "100" then Some 100
  else if String.eqb s "2" then Some 2
  else None.

Definition sample_ui : Widgets Z :=
  mkWidgets "" "" "" 0 true true 100 "KiB/s" true true true 0 1 true
    (595, 274) (300, 300) true.

(** The widgets as a freshly built window has them, with one item in
    after_comboBox. *)
Definition fresh_ui : Widgets Z :=
  mkWidgets "" "" "" 0 true false 0 "KiB/s" true true false 0 1 true
    (0, 0) (0, 0) false.

Definition all_connected : Connections :=
  mkConnections true true true true true true true true true true.

Definition sample_window (st : PyVal) : ProgressWindow Z :=
  mkProgressWindow (mkMainWindow []) "gid01" st sample_ui all_connected.

(** A user who types a wrong password twice and the right one at the third
    prompt, on a platform that is not Windows. *)
Definition third_time_lucky : Env :=
  mkEnv "Linux" "Windows"
    (fun _ => PyBool true) (fun _ => PyBool true) (fun _ => PyStr "ok")
    (PyStr "1.36.0")
    (fun n => if (n <? 2)%nat then ("guess", true) else ("s3cret", true))
    (fun _ p => if String.eqb p "s3cret" then 0 else 1)
    (PyStr "en_US") (fun _ => false)
    (fun _ => Some (<["limit_value" := PyStr "100K"]> ∅))
    None None.

(** A user who types a wrong password and cancels the second prompt. *)
Definition gives_up : Env :=
  mkEnv "Linux" "Windows"
    (fun _ => PyBool true) (fun _ => PyBool true) (fun _ => PyStr "ok")
    (PyStr "1.36.0")
    (fun n => if (n <? 1)%nat then ("guess", true) else ("", false))
    (fun _ p => if String.eqb p "s3cret" then 0 else 1)
    (PyStr "en_US") (fun _ => false)
    (fun _ => Some (<["limit_value" := PyStr "2M"]> ∅))
    None None.

(** A user who answers every prompt with the same wrong password. *)
Definition stubborn : Env :=
  mkEnv "Linux" "Windows"
    (fun _ => PyBool true) (fun _ => PyBool true) (fun _ => PyStr "ok")
    (PyStr "1.36.0")
    (fun _ => ("guess", true))
    (fun _ p => if String.eqb p "s3cret" then 0 else 1)
    (PyStr "en_US") (fun _ => false)
    (fun _ => Some (<["limit_value" := PyInt 0]> ∅))
    None None.

(** An aria2 daemon that has gone away. *)
Definition aria2_down : Env :=
  mkEnv "Windows" "Windows"
    (fun _ => PyBool false) (fun _ => PyNone) (fun _ => PyNone)
    (PyStr "did not respond")
    (fun _ => ("", false)) (fun _ _ => 1)
    (PyStr "en_US") (fun _ => true)
    (fun _ => None)
    (Some (640, 480)) (Some (10, 10)).

(** ** ShutDownThread.run

    [run] hands the thread's fields to [shutDown] of persepolis.scripts.shutdown;
    the call is recorded with its arguments. *)

Record ShutDownCall := mkShutDownCall {
  shutDown_gid : string;
  shutDown_password : option string
}.

Definition ShutDownThread_run (t : ShutDownThread) : ShutDownCall :=
  mkShutDownCall (thread_gid t) (thread_password t).

(** ** More readers of a trace *)

Definition communicated (e : Event) : option string :=
  match e with EvCommunicate p => Some p | _ => None end.

Definition popen_call (e : Event) : option (list string) :=
  match e with EvPopen argv => Some argv | _ => None end.

Definition single_table_write (e : Event) : option (gmap string string) :=
  match e with EvUpdateSingleTable d => Some d | _ => None end.

Definition add_link_write (e : Event) : option (list (gmap string string)) :=
  match e with EvUpdateAddLinkTable ds => Some ds | _ => None end.

Definition settings_write (key : string) (e : Event) : option (Z * Z) :=
  match e with
  | EvSettingsSetValue k v => if String.eqb k key then Some v else None
  | _ => None
  end.

(** What a QSettings store holds under [key] after the writes of a trace
    ([None] when the trace does not write it). *)
Definition saved_setting (key : string) (tr : list Event) : option (Z * Z) :=
  last (omap (settings_write key) tr).

(** Every dialog that says 'Wrong Password!' comes right after a sudo child
    that exited with a status other than 0. [prev] is the event before the
    trace. *)
Fixpoint prompts_follow_rejections (prev : option Event) (tr : list Event)
  : bool :=
  match tr with
  | [] => true
  | e :: rest =>
      match e with
      | EvGetText _ label _ =>
          if String.eqb label wrong_password_label then
            match prev with
            | Some (EvWait a) => negb (a =? 0)
            | _ => false
            end
          else true
      | _ => true
      end && prompts_follow_rejections (Some e) rest
  end.

(** The status the main window assigned last in a sequence of steps. *)
Fixpoint last_status (steps : list Step) (s : PyVal) : PyVal :=
  match steps with
  | [] => s
  | SetStatus v :: rest => last_status rest v
  | Call _ _ _ :: rest => last_status rest s
  end.

(** A later session: the task's row holds the limit '2M', and the settings
    hold a window geometry. *)
Definition reopened : Env :=
  mkEnv "Linux" "Windows"
    (fun _ => PyBool true) (fun _ => PyBool true) (fun _ => PyStr "ok")
    (PyStr "1.36.0")
    (fun _ => ("", false)) (fun _ _ => 1)
    (PyStr "en_US") (fun _ => true)
    (fun _ => Some (<["limit_value" := PyStr "2M"]> ∅))
    (Some (595, 274)) (Some (300, 300)).

(** ** The constructor in three parts

    The window and the trace when the constructor reaches the lookup of the
    stored limit, and what it does to the window after the limit is
    restored. *)

Definition before_restore {V} (parent0 : MainWindow) (gid0 : string)
  (ui0 : Widgets V) : ProgressWindow V :=
  with_connections connect_after_clicked
    (with_connections connect_after_checkBox_toggled
       (with_ui (set_after_frame_enabled false)
          (with_connections connect_limit_checkBox_toggled
             (with_ui (set_limit_frame_enabled false)
                (with_connections connect_limit_clicked
                   (with_ui (set_download_progressBar_value 0)
                      (with_connections connect_pause_clicked
                         (with_connections connect_stop_clicked
                            (with_connections connect_resume_clicked
                               (mkProgressWindow parent0 gid0 PyNone ui0
                                  no_connections)))))))))).

Definition before_restore_trace (env : Env) (gid0 : string) : list Event :=
  [EvSetDefaultLocale (py_str (settings_locale env));
   EvTranslatorLoad
     (":/translations/locales/ui_" +:+ py_str (settings_locale env)) "ts"] ++
  (if translator_load env
        (":/translations/locales/ui_" +:+ py_str (settings_locale env))
   then [EvInstallTranslator] else []) ++
  [EvSearchGidInAddLinkTable gid0].

Definition after_restore {V} (env : Env) (w : ProgressWindow V)
  : ProgressWindow V :=
  with_ui (set_window_pos (default (300, 300) (settings_position env)))
    (with_ui (set_window_size (default (595, 274) (settings_size env)))
       (with_connections connect_limit_spinBox_valueChanged
          (with_connections connect_limit_comboBox_currentIndexChanged
             (with_connections connect_after_comboBox_currentIndexChanged
                w)))).

(** What this class may write to the databases for task [g]: to temp_db
    the record that cancels the shutdown, to the add-link table one record
    with the task's limit. *)
Definition writes_only (g : string) (e : Event) : Prop :=
  match e with
  | EvUpdateSingleTable d => d = shutdown_canceled_dict g
  | EvUpdateAddLinkTable ds => exists value, ds = [limit_value_dict g value]
  | _ => True
  end.

(** The password of a dialog that was confirmed. *)
Definition typed (r : string * bool) : option string :=
  if r.2 then Some r.1 else None.


(** * Properties *)

Lemma py_eq_str_spec (v : PyVal) (s : string) :
  py_eq_str v s = true <-> v = PyStr s.
Proof.
  destruct v as [| b | z | t]; simpl; try (split; [discriminate | congruence]).
  rewrite String.eqb_eq. split; congruence.
Qed.

Lemma py_eq_str_false (v : PyVal) (s : string) :
  py_eq_str v s = false <-> v <> PyStr s.
Proof.
  rewrite <- py_eq_str_spec. destruct (py_eq_str v s); split; congruence.
Qed.

Lemma shutdown_canceled_dict_lookup (g : string) :
  shutdown_canceled_dict g !! "gid" = Some g /\
  shutdown_canceled_dict g !! "shutdown" = Some "canceled" /\
  dom (shutdown_canceled_dict g) = ({["gid"; "shutdown"]} : gset string).
Proof.
  unfold shutdown_canceled_dict. split; [|split].
  - apply lookup_insert_eq.
  - rewrite lookup_insert_ne by discriminate. apply lookup_insert_eq.
  - rewrite !dom_insert_L, dom_empty_L. set_solver.
Qed.

Lemma limit_value_dict_lookup (g value : string) :
  limit_value_dict g value !! "gid" = Some g /\
  limit_value_dict g value !! "limit_value" = Some value /\
  dom (limit_value_dict g value) = ({["gid"; "limit_value"]} : gset string).
Proof.
  unfold limit_value_dict. split; [|split].
  - apply lookup_insert_eq.
  - rewrite lookup_insert_ne by discriminate. apply lookup_insert_eq.
  - rewrite !dom_insert_L, dom_empty_L. set_solver.
Qed.

Section Handlers.

Context {V : Type}.
Variable str_of_value : V -> string.
Variable env : Env.

(** *** The three push buttons, as equations *)

Lemma resume_runs (w : ProgressWindow V) :
  resumePushButtonPressed env w =
    (Returns tt, w,
     if py_eq_str (status w) "paused" then
       EvDownloadUnpause (gid w) ::
       (if truthy (downloadUnpause env (gid w)) then []
        else EvAria2Version ::
          (if py_eq_str (aria2Version env) "did not respond" then
             [EvAria2Disconnected;
              EvNotifySend (Tr ui_tr "Aria2 disconnected!")
                (Tr ui_tr "Persepolis is trying to connect! be patient!")
                10000 "warning"]
           else
             [EvNotifySend (Tr ui_tr "Aria2 did not respond!")
                (Tr ui_tr "Please try again.") 10000 "warning"]))
     else []).
Proof.
  unfold resumePushButtonPressed. step_handler.
  destruct (py_eq_str (status w) "paused"); [|reflexivity].
  destruct (truthy (downloadUnpause env (gid w))); [reflexivity|]. cbn.
  destruct (py_eq_str (aria2Version env) "did not respond"); reflexivity.
Qed.

Lemma pause_runs (w : ProgressWindow V) :
  pausePushButtonPressed env w =
    (Returns tt, w,
     if py_eq_str (status w) "downloading" then
       EvDownloadPause (gid w) ::
       (if truthy (downloadPause env (gid w)) then []
        else EvAria2Version ::
          (if py_eq_str (aria2Version env) "did not respond" then
             [EvAria2Disconnected;
              EvDownloadStop (gid w);
              EvNotifySend (Lit "Aria2 disconnected!")
                (Lit "Persepolis is trying to connect! be patient!")
                10000 "warning"]
           else
             [EvNotifySend (Tr ui_tr "Aria2 did not respond!")
                (Tr ui_tr "Try again!") 10000 "critical"]))
     else []).
Proof.
  unfold pausePushButtonPressed. step_handler.
  destruct (py_eq_str (status w) "downloading"); [|reflexivity].
  destruct (truthy (downloadPause env (gid w))); [reflexivity|]. cbn.
  destruct (py_eq_str (aria2Version env) "did not respond"); reflexivity.
Qed.

Lemma stop_runs (w : ProgressWindow V) :
  stopPushButtonPressed env w =
    (Returns tt, w,
     EvUpdateSingleTable (shutdown_canceled_dict (gid w)) ::
     EvDownloadStop (gid w) ::
     (if py_eq_str (downloadStop env (gid w)) "None" then
        EvAria2Version ::
        (if py_eq_str (aria2Version env) "did not respond" then
           [EvAria2Disconnected;
            EvNotifySend (Tr ui_tr "Aria2 disconnected!")
              (Tr ui_tr "Persepolis is trying to connect! be patient!")
              10000 "warning"]
         else [])
      else [])).
Proof.
  unfold stopPushButtonPressed. step_handler.
  destruct (py_eq_str (downloadStop env (gid w)) "None"); [|reflexivity]. cbn.
  destruct (py_eq_str (aria2Version env) "did not respond"); reflexivity.
Qed.

(** C1: resumePushButtonPressed calls download.downloadUnpause(self.gid),
    once, exactly when self.status == 'paused'; with any other status it
    makes no call at all and leaves the window as it was. The same holds of
    pausePushButtonPressed with download.downloadPause and the status
    'downloading'. *)
Theorem resume_pause_only_in_their_status (w : ProgressWindow V) :
  (status w = PyStr "paused" ->
     omap unpause_call (trace_of (resumePushButtonPressed env w)) = [gid w]) /\
  (status w <> PyStr "paused" ->
     resumePushButtonPressed env w = (Returns tt, w, [])) /\
  (status w = PyStr "downloading" ->
     omap pause_call (trace_of (pausePushButtonPressed env w)) = [gid w]) /\
  (status w <> PyStr "downloading" ->
     pausePushButtonPressed env w = (Returns tt, w, [])).
Proof.
  rewrite resume_runs, pause_runs. unfold trace_of. cbn [snd].
  repeat split.
  - intros Hs. apply py_eq_str_spec in Hs. rewrite Hs.
    destruct (truthy _); [reflexivity|].
    destruct (py_eq_str (aria2Version env) _); reflexivity.
  - intros Hs. apply py_eq_str_false in Hs. rewrite Hs. reflexivity.
  - intros Hs. apply py_eq_str_spec in Hs. rewrite Hs.
    destruct (truthy _); [reflexivity|].
    destruct (py_eq_str (aria2Version env) _); reflexivity.
  - intros Hs. apply py_eq_str_false in Hs. rewrite Hs. reflexivity.
Qed.

(** C2: whatever self.status is, stopPushButtonPressed first writes
    {'gid': self.gid, 'shutdown': 'canceled'} with
    temp_db.updateSingleTable and only then calls
    download.downloadStop(self.gid, self.parent); neither call is
    repeated. *)
Theorem stop_writes_then_stops (w : ProgressWindow V) :
  exists rest,
    stopPushButtonPressed env w =
      (Returns tt, w,
       EvUpdateSingleTable (shutdown_canceled_dict (gid w)) ::
       EvDownloadStop (gid w) :: rest) /\
    Forall (fun e => is_db_write e = false) rest /\
    omap stop_call rest = [] /\
    shutdown_canceled_dict (gid w) !! "gid" = Some (gid w) /\
    shutdown_canceled_dict (gid w) !! "shutdown" = Some "canceled" /\
    dom (shutdown_canceled_dict (gid w)) = ({["gid"; "shutdown"]} : gset string).
Proof.
  rewrite stop_runs. eexists. split; [reflexivity|].
  split; [|split; [|apply shutdown_canceled_dict_lookup]].
  - destruct (py_eq_str (downloadStop env (gid w)) _);
      [destruct (py_eq_str (aria2Version env) _)|]; repeat constructor.
  - destruct (py_eq_str (downloadStop env (gid w)) _);
      [destruct (py_eq_str (aria2Version env) _)|]; reflexivity.
Qed.

(** C6: after a falsy answer of downloadUnpause or downloadPause the handler
    asks download.aria2Version() and calls parent.aria2Disconnected() if and
    only if the answer is 'did not respond'; in that branch
    pausePushButtonPressed also calls download.downloadStop, which
    resumePushButtonPressed never does. stopPushButtonPressed asks
    aria2Version exactly when downloadStop returned the string 'None', so
    not when it returned the value None. *)
Theorem availability_check (w : ProgressWindow V) :
  (status w = PyStr "paused" ->
   truthy (downloadUnpause env (gid w)) = false ->
     EvAria2Version ∈ trace_of (resumePushButtonPressed env w) /\
     (EvAria2Disconnected ∈ trace_of (resumePushButtonPressed env w) <->
      aria2Version env = PyStr "did not respond")) /\
  omap stop_call (trace_of (resumePushButtonPressed env w)) = [] /\
  (status w = PyStr "downloading" ->
   truthy (downloadPause env (gid w)) = false ->
     EvAria2Version ∈ trace_of (pausePushButtonPressed env w) /\
     (EvAria2Disconnected ∈ trace_of (pausePushButtonPressed env w) <->
      aria2Version env = PyStr "did not respond") /\
     (EvDownloadStop (gid w) ∈ trace_of (pausePushButtonPressed env w) <->
      aria2Version env = PyStr "did not respond")) /\
  (EvAria2Version ∈ trace_of (stopPushButtonPressed env w) <->
   downloadStop env (gid w) = PyStr "None") /\
  (downloadStop env (gid w) = PyNone ->
   EvAria2Version ∉ trace_of (stopPushButtonPressed env w)).
Proof.
  rewrite resume_runs, pause_runs, stop_runs. unfold trace_of. cbn [snd].
  rewrite <- !py_eq_str_spec.
  split; [|split; [|split; [|split]]].
  - intros Hs Ha. rewrite Hs, Ha. cbn.
    destruct (py_eq_str (aria2Version env) _);
      rewrite ?elem_of_cons, ?elem_of_nil; intuition congruence.
  - destruct (py_eq_str (status w) _); [|reflexivity].
    destruct (truthy _); [reflexivity|].
    destruct (py_eq_str (aria2Version env) _); reflexivity.
  - intros Hs Ha. rewrite Hs, Ha. cbn.
    destruct (py_eq_str (aria2Version env) _);
      rewrite ?elem_of_cons, ?elem_of_nil; intuition congruence.
  - destruct (py_eq_str (downloadStop env (gid w)) _);
      [destruct (py_eq_str (aria2Version env) _)|];
      rewrite ?elem_of_cons, ?elem_of_nil; intuition congruence.
  - intros Hn. rewrite Hn. cbn.
    rewrite ?elem_of_cons, ?elem_of_nil; intuition congruence.
Qed.

(** *** The check boxes and the limit button *)


(** C3: limitPushButtonPressed builds that value; with a status other than
    'scheduled' it only calls download.limitSpeed(self.gid, value), and with
    the status 'scheduled' it only writes
    {'gid': self.gid, 'limit_value': value} with updateAddLinkTable.
    limitCheckBoxToggled, with limit_checkBox unchecked, makes the same
    split with the value '0'. *)
Theorem limit_goes_to_aria2_or_database (w : ProgressWindow V) :
  (status w <> PyStr "scheduled" ->
     limitPushButtonPressed str_of_value w =
       (Returns tt, with_ui (set_limit_pushButton_enabled false) w,
        [EvLimitSpeed (gid w) (spec_limit_value str_of_value w)])) /\
  (status w = PyStr "scheduled" ->
     limitPushButtonPressed str_of_value w =
       (Returns tt, with_ui (set_limit_pushButton_enabled false) w,
        [EvUpdateAddLinkTable
           [limit_value_dict (gid w) (spec_limit_value str_of_value w)]])) /\
  (limit_checkBox_checked (ui w) = false ->
     (status w <> PyStr "scheduled" ->
        limitCheckBoxToggled w =
          (Returns tt, with_ui (set_limit_frame_enabled false) w,
           [EvLimitSpeed (gid w) "0"])) /\
     (status w = PyStr "scheduled" ->
        limitCheckBoxToggled w =
          (Returns tt, with_ui (set_limit_frame_enabled false) w,
           [EvUpdateAddLinkTable [limit_value_dict (gid w) "0"]]))) /\
  (forall value,
     limit_value_dict (gid w) value !! "gid" = Some (gid w) /\
     limit_value_dict (gid w) value !! "limit_value" = Some value /\
     dom (limit_value_dict (gid w) value)
       = ({["gid"; "limit_value"]} : gset string)).
Proof.
  assert (Hv : (if String.eqb (limit_comboBox_currentText (ui w)) "KiB/s"
                then str_of_value (limit_spinBox_value (ui w)) +:+ "K"
                else str_of_value (limit_spinBox_value (ui w)) +:+ "M")
               = spec_limit_value str_of_value w).
  { unfold spec_limit_value.
    destruct (String.eqb_spec (limit_comboBox_currentText (ui w)) "KiB/s");
      case_decide; congruence. }
  split; [|split; [|split]].
  - intros Hs. apply py_eq_str_false in Hs.
    unfold limitPushButtonPressed. step_handler. rewrite Hs, Hv. reflexivity.
  - intros Hs. apply py_eq_str_spec in Hs.
    unfold limitPushButtonPressed. step_handler. rewrite Hs, Hv. reflexivity.
  - intros Hc. split; intros Hs;
      [apply py_eq_str_false in Hs | apply py_eq_str_spec in Hs];
      unfold limitCheckBoxToggled; step_handler; rewrite Hc; cbn;
      rewrite Hs; reflexivity.
  - intros value. apply limit_value_dict_lookup.
Qed.

End Handlers.
(** *** afterPushButtonPressed: the retry loop and its three ways out *)

Section AfterButton.

Context {V : Type}.
Variable str_of_value : V -> string.
Variable env : Env.

Lemma retry_loop_done (fuel n : nat) (p : string) (ok : bool)
  (w : ProgressWindow V) :
  retry_loop env fuel n p ok 0 w = (Returns (p, ok), w, []).
Proof. destruct fuel; reflexivity. Qed.

Lemma retry_loop_step (fuel n : nat) (p : string) (ok : bool) (a : Z)
  (w : ProgressWindow V) :
  a <> 0 ->
  retry_loop env (S fuel) (S n) p ok a w =
    if confirmed env (S n) then
      match retry_loop env fuel (S (S n)) (entered env (S n)) true
              (sudo_wait env (S n) (entered env (S n))) w with
      | (o, w', tr) => (o, w', attempt_events env (S n) ++ tr)
      end
    else (Returns (entered env (S n), false), w, attempt_events env (S n)).
Proof.
  intros Ha. apply Z.eqb_neq in Ha.
  cbn [retry_loop]. rewrite Ha. cbn [negb].
  unfold attempt_events, confirmed, entered. step_handler.
  destruct (getText env (S n)) as [pw [|]]; cbn; [|reflexivity].
  destruct (retry_loop env fuel (S (S n)) pw true (sudo_wait env (S n) pw) w)
    as [[o w'] tr].
  reflexivity.
Qed.

Lemma asks_again_true (n : nat) :
  asks_again env n = true <->
  confirmed env n = true /\ sudo_wait env n (entered env n) <> 0.
Proof.
  unfold asks_again, sudo_accepts.
  rewrite andb_true_iff, negb_true_iff, Z.eqb_neq. reflexivity.
Qed.

Lemma asks_again_false (n : nat) :
  asks_again env n = false <->
  confirmed env n = false \/
  (confirmed env n = true /\ sudo_wait env n (entered env n) = 0).
Proof.
  unfold asks_again, sudo_accepts. rewrite <- Z.eqb_eq.
  destruct (confirmed env n), (sudo_wait env n (entered env n) =? 0); cbn;
    intuition congruence.
Qed.

Lemma retry_loop_exits (d : nat) :
  forall (m e fuel : nat) (p : string) (ok : bool) (a : Z)
    (w : ProgressWindow V),
    e = (S m + d)%nat -> a <> 0 -> (d < fuel)%nat ->
    (forall k, (S m <= k < e)%nat -> asks_again env k = true) ->
    asks_again env e = false ->
    retry_loop env fuel (S m) p ok a w =
      (Returns (entered env e, confirmed env e), w,
       attempts_from env (S m) (S d)).
Proof.
  induction d as [|d IH]; intros m e fuel p ok a w He Ha Hf Hbefore Hexit;
    (destruct fuel as [|fuel]; [lia|]); rewrite retry_loop_step by exact Ha.
  - replace e with (S m) in * by lia. cbn [attempts_from].
    rewrite app_nil_r.
    apply asks_again_false in Hexit. destruct Hexit as [Hc | [Hc Hs]];
      rewrite Hc; [reflexivity|].
    rewrite Hs, retry_loop_done, app_nil_r. reflexivity.
  - assert (Hm : asks_again env (S m) = true) by (apply Hbefore; lia).
    apply asks_again_true in Hm. destruct Hm as [Hc Hs]. rewrite Hc.
    rewrite (IH (S m) e fuel _ true _ w); try assumption; try lia.
    + reflexivity.
    + intros k Hk. apply Hbefore. lia.
Qed.

Lemma retry_loop_starves (fuel : nat) :
  forall (m : nat) (p : string) (ok : bool) (a : Z) (w : ProgressWindow V),
    a <> 0 ->
    (forall k, (S m <= k < S m + fuel)%nat -> asks_again env k = true) ->
    retry_loop env fuel (S m) p ok a w =
      (OutOfFuel, w, attempts_from env (S m) fuel).
Proof.
  induction fuel as [|fuel IH]; intros m p ok a w Ha Hall.
  - cbn [retry_loop]. apply Z.eqb_neq in Ha. rewrite Ha. reflexivity.
  - rewrite retry_loop_step by exact Ha.
    assert (Hm : asks_again env (S m) = true) by (apply Hall; lia).
    apply asks_again_true in Hm. destruct Hm as [Hc Hs]. rewrite Hc.
    rewrite (IH (S m) _ true _ w Hs).
    + reflexivity.
    + intros k Hk. apply Hall. lia.
Qed.

Lemma after_windows (fuel : nat) (w : ProgressWindow V) :
  os_type env = OS_WINDOWS env ->
  afterPushButtonPressed env fuel w =
    (Returns tt,
     with_threadPool
       (threadPool (parent w) ++ [mkShutDownThread (gid w) None true])
       (button_off w),
     [EvThreadStart (mkShutDownThread (gid w) None true)]).
Proof.
  intros Hos. apply String.eqb_eq in Hos.
  unfold afterPushButtonPressed. step_handler. rewrite Hos. cbn [negb].
  start_last_thread. reflexivity.
Qed.

Lemma after_accepted (n fuel : nat) (w : ProgressWindow V) :
  os_type env <> OS_WINDOWS env ->
  accepted_at env n -> (n <= fuel)%nat ->
  afterPushButtonPressed env fuel w =
    (Returns tt,
     with_threadPool
       (threadPool (parent w) ++
        [mkShutDownThread (gid w) (Some (entered env n)) true])
       (button_off w),
     attempts_from env 0 (S n) ++
     [EvThreadStart (mkShutDownThread (gid w) (Some (entered env n)) true)]).
Proof.
  intros Hos [Hbefore [Hc Hs]] Hf. apply String.eqb_neq in Hos.
  unfold sudo_accepts in Hs. apply Z.eqb_eq in Hs.
  unfold afterPushButtonPressed. step_handler. rewrite Hos. cbn [negb].
  destruct n as [|n].
  - unfold confirmed, entered in *. rewrite Hc, Hs, retry_loop_done.
    cbn. start_last_thread.
    reflexivity.
  - assert (H0 : asks_again env 0 = true) by (apply Hbefore; lia).
    apply asks_again_true in H0. destruct H0 as [Hc0 Hs0].
    assert (Hexit : asks_again env (S n) = false).
    { apply asks_again_false. right. split; assumption. }
    pose proof (retry_loop_exits n 0 (S n) fuel (entered env 0) true
                  (sudo_wait env 0 (entered env 0)) (button_off w)
                  eq_refl Hs0 ltac:(lia)
                  ltac:(intros k Hk; apply Hbefore; lia) Hexit) as Hloop.
    unfold confirmed, entered in *. rewrite Hc0.
    unfold button_off in Hloop. rewrite Hloop. cbn. rewrite Hc. cbn.
    start_last_thread. reflexivity.
Qed.

Lemma uncheck_runs (w : ProgressWindow V) :
  exists w' tr,
    after_checkBox_setChecked false w = (Returns tt, w', tr) /\
    after_checkBox_checked (ui w') = false /\
    parent w' = parent w /\ gid w' = gid w /\ status w' = status w /\
    connections w' = connections w /\
    (tr = [] \/ tr = [EvUpdateSingleTable (shutdown_canceled_dict (gid w))]).
Proof.
  unfold after_checkBox_setChecked, afterCheckBoxToggled. step_handler.
  destruct (after_checkBox_checked (ui w)) eqn:Hc; cbn.
  - destruct (after_checkBox_toggled (connections w)); cbn;
      eexists _, _; (split; [reflexivity|]); cbn; auto 10.
  - eexists _, _. split; [reflexivity|]. auto 10.
Qed.

Lemma after_cancelled (n fuel : nat) (w : ProgressWindow V) :
  os_type env <> OS_WINDOWS env ->
  cancelled_at env n -> (n <= fuel)%nat ->
  afterPushButtonPressed env fuel w =
    match after_checkBox_setChecked false (button_off w) with
    | (o, w', tr) => (o, w', attempts_from env 0 (S n) ++ tr)
    end.
Proof.
  intros Hos [Hbefore Hc] Hf. apply String.eqb_neq in Hos.
  destruct (uncheck_runs (button_off w)) as (w' & tr & Hun & _).
  rewrite Hun.
  unfold afterPushButtonPressed. step_handler. rewrite Hos. cbn [negb].
  destruct n as [|n].
  - unfold confirmed in Hc. rewrite Hc. fold (button_off w). rewrite Hun.
    unfold attempt_events, confirmed. rewrite Hc. reflexivity.
  - assert (H0 : asks_again env 0 = true) by (apply Hbefore; lia).
    apply asks_again_true in H0. destruct H0 as [Hc0 Hs0].
    assert (Hexit : asks_again env (S n) = false).
    { apply asks_again_false. left. assumption. }
    pose proof (retry_loop_exits n 0 (S n) fuel (entered env 0) true
                  (sudo_wait env 0 (entered env 0)) (button_off w)
                  eq_refl Hs0 ltac:(lia)
                  ltac:(intros k Hk; apply Hbefore; lia) Hexit) as Hloop.
    unfold confirmed, entered in *. rewrite Hc0.
    fold (button_off w). rewrite Hloop. cbn. rewrite Hc, Hun.
    unfold confirmed, entered. rewrite ?Hc0. cbn.
    rewrite <- ?app_assoc. reflexivity.
Qed.

Lemma after_starved (fuel : nat) (w : ProgressWindow V) :
  os_type env <> OS_WINDOWS env ->
  (forall k, (k <= fuel)%nat -> asks_again env k = true) ->
  afterPushButtonPressed env fuel w =
    (OutOfFuel, button_off w, attempts_from env 0 (S fuel)).
Proof.
  intros Hos Hall. apply String.eqb_neq in Hos.
  assert (H0 : asks_again env 0 = true) by (apply Hall; lia).
  apply asks_again_true in H0. destruct H0 as [Hc0 Hs0].
  pose proof (retry_loop_starves fuel 0 (entered env 0) true
                (sudo_wait env 0 (entered env 0)) (button_off w) Hs0
                ltac:(intros k Hk; apply Hall; lia)) as Hloop.
  unfold afterPushButtonPressed. step_handler. rewrite Hos. cbn [negb].
  unfold confirmed, entered in *. rewrite Hc0.
  fold (button_off w). rewrite Hloop. cbn.
  unfold confirmed, entered. rewrite ?Hc0. reflexivity.
Qed.

(** Within any fuel, either some prompt ends the dialogue or all of them
    ask again. *)
Lemma dialogue_cases (fuel : nat) :
  (exists n, (n <= fuel)%nat /\ (cancelled_at env n \/ accepted_at env n)) \/
  (forall k, (k <= fuel)%nat -> asks_again env k = true).
Proof.
  induction fuel as [|fuel [(n & Hn & Hend) | Hall]].
  - destruct (asks_again env 0) eqn:H0.
    + right. intros k Hk. replace k with 0%nat by lia. exact H0.
    + left. exists 0%nat. split; [lia|].
      apply asks_again_false in H0. unfold cancelled_at, accepted_at,
        sudo_accepts. rewrite Z.eqb_eq.
      destruct H0 as [Hc | [Hc Hs]]; [left | right]; repeat split;
        try assumption; intros k Hk; lia.
  - left. exists n. split; [lia | exact Hend].
  - destruct (asks_again env (S fuel)) eqn:H0.
    + right. intros k Hk. destruct (decide (k = S fuel)) as [-> | Hne];
        [exact H0 | apply Hall; lia].
    + left. exists (S fuel). split; [lia|].
      apply asks_again_false in H0. unfold cancelled_at, accepted_at,
        sudo_accepts. rewrite Z.eqb_eq.
      destruct H0 as [Hc | [Hc Hs]]; [left | right]; repeat split;
        try assumption; intros k Hk; apply Hall; lia.
Qed.

(** What the prompts leave in the trace. *)

Lemma attempt_no_thread (n : nat) :
  omap thread_start (attempt_events env n) = [].
Proof. unfold attempt_events. destruct (confirmed env n); reflexivity. Qed.

Lemma attempt_one_dialog (n : nat) :
  omap dialog_shown (attempt_events env n) = [getText env n].
Proof. unfold attempt_events. destruct (confirmed env n); reflexivity. Qed.

Lemma attempt_targets (g : string) (n : nat) :
  Forall (targets g) (attempt_events env n).
Proof.
  unfold attempt_events. destruct (confirmed env n); repeat constructor.
Qed.

Lemma attempts_no_thread (c : nat) :
  forall m, omap thread_start (attempts_from env m c) = [].
Proof.
  induction c as [|c IH]; intros m; cbn [attempts_from]; [reflexivity|].
  rewrite omap_app, attempt_no_thread, IH. reflexivity.
Qed.

Lemma attempts_dialogs (c : nat) :
  forall m,
    omap dialog_shown (attempts_from env m c) = map (getText env) (seq m c).
Proof.
  induction c as [|c IH]; intros m; cbn [attempts_from]; [reflexivity|].
  rewrite omap_app, attempt_one_dialog, IH. reflexivity.
Qed.

Lemma attempts_targets (g : string) (c : nat) :
  forall m, Forall (targets g) (attempts_from env m c).
Proof.
  induction c as [|c IH]; intros m; cbn [attempts_from]; [constructor|].
  apply Forall_app. split; [apply attempt_targets | apply IH].
Qed.

Lemma attempts_from_snoc (c : nat) :
  forall m,
    attempts_from env m (S c) =
      attempts_from env m c ++ attempt_events env (m + c).
Proof.
  induction c as [|c IH]; intros m.
  - cbn [attempts_from]. rewrite Nat.add_0_r, app_nil_r. reflexivity.
  - change (attempts_from env m (S (S c)))
      with (attempt_events env m ++ attempts_from env (S m) (S c)).
    rewrite IH. cbn [attempts_from]. rewrite <- app_assoc.
    replace (S m + c)%nat with (m + S c)%nat by lia. reflexivity.
Qed.

Lemma thread_start_elem (t : ShutDownThread) (tr : list Event) :
  EvThreadStart t ∈ tr <-> t ∈ omap thread_start tr.
Proof.
  rewrite list_elem_of_omap. split.
  - intros Hin. exists (EvThreadStart t). split; [exact Hin | reflexivity].
  - intros (e & Hin & He). destruct e; try discriminate.
    cbn in He. congruence.
Qed.

(** Every other method returns, and leaves the task, the status and the
    main window alone. *)

Ltac solve_targets :=
  repeat first
    [ apply (proj1 (shutdown_canceled_dict_lookup _))
    | apply (proj1 (limit_value_dict_lookup _ _))
    | constructor ].

Lemma call_other (fuel : nat) (m : Method) (w : ProgressWindow V) :
  m <> AfterPushButtonPressed ->
  exists w' tr,
    call str_of_value env fuel m w = (Returns tt, w', tr) /\
    parent w' = parent w /\ gid w' = gid w /\ status w' = status w /\
    omap thread_start tr = [] /\ Forall (targets (gid w)) tr.
Proof.
  intros Hm. destruct m; try congruence; cbn [call].
  - rewrite resume_runs. eexists _, _. split; [reflexivity|].
    repeat split; repeat case_match; try reflexivity; solve_targets.
  - rewrite pause_runs. eexists _, _. split; [reflexivity|].
    repeat split; repeat case_match; try reflexivity; solve_targets.
  - rewrite stop_runs. eexists _, _. split; [reflexivity|].
    repeat split; repeat case_match; try reflexivity; solve_targets.
  - unfold limitCheckBoxToggled. step_handler.
    destruct (limit_checkBox_checked (ui w)); cbn;
      [|destruct (py_eq_str (status w) "scheduled"); cbn];
      eexists _, _; (split; [reflexivity|]);
      repeat split; solve_targets.
  - eexists _, _. split; [reflexivity|]. repeat split. constructor.
  - eexists _, _. split; [reflexivity|]. repeat split. constructor.
  - unfold afterCheckBoxToggled. step_handler.
    destruct (after_checkBox_checked (ui w)); cbn;
      eexists _, _; (split; [reflexivity|]);
      repeat split; solve_targets.
  - unfold limitPushButtonPressed. step_handler.
    destruct (py_eq_str (status w) "scheduled"); cbn;
      eexists _, _; (split; [reflexivity|]);
      repeat split; solve_targets.
  - eexists _, _. split; [reflexivity|]. repeat split. constructor.
  - unfold keyPressEvent, close, closeEvent. step_handler.
    destruct (key =? Key_Escape); cbn;
      eexists _, _; (split; [reflexivity|]);
      repeat split; solve_targets.
  - eexists _, _. split; [reflexivity|]. repeat split; solve_targets.
Qed.

End AfterButton.

(** *** The constructor *)

Lemma py_init_snoc (prefix : string) (c : Ascii.ascii) :
  py_init (prefix +:+ String c "") = prefix.
Proof.
  induction prefix as [|a prefix IH]; [reflexivity|].
  destruct prefix as [|b p]; [reflexivity|].
  change (String a (String b p) +:+ String c "")
    with (String a (String b (p +:+ String c ""))).
  change (py_init (String a (String b (p +:+ String c ""))))
    with (String a (py_init (String b p +:+ String c ""))).
  rewrite IH. reflexivity.
Qed.

Lemma py_last_snoc (prefix : string) (c : Ascii.ascii) :
  py_last (prefix +:+ String c "") = Some c.
Proof.
  induction prefix as [|a prefix IH]; [reflexivity|].
  destruct prefix as [|b p]; [reflexivity|].
  change (String a (String b p) +:+ String c "")
    with (String a (String b (p +:+ String c ""))).
  change (py_last (String a (String b (p +:+ String c ""))))
    with (py_last (String b p +:+ String c "")).
  exact IH.
Qed.

Section Constructor.

Context {V : Type} `{EqDecision V}.
Variable float_of_string : string -> option V.
Variable env : Env.

Lemma restore_limit_runs (prefix : string) (unit : Ascii.ascii) (x : V)
  (w : ProgressWindow V) :
  prefix +:+ String unit "" <> "0" ->
  float_of_string prefix = Some x ->
  exists w',
    restore_limit float_of_string (prefix +:+ String unit "") w
      = (Returns tt, w', []) /\
    parent w' = parent w /\ gid w' = gid w /\ status w' = status w /\
    connections w' = connections w /\
    limit_spinBox_value (ui w') = x /\
    limit_checkBox_checked (ui w') = true /\
    after_comboBox_currentIndex (ui w')
      = (if decide (unit = "K"%char)
         then if decide (0 < after_comboBox_count (ui w)) then 0 else -1
         else if decide (1 < after_comboBox_count (ui w)) then 1 else -1) /\
    limit_comboBox_currentText (ui w') = limit_comboBox_currentText (ui w).
Proof.
  intros Hne Hfl. apply String.eqb_neq in Hne.
  unfold restore_limit. rewrite Hne, py_init_snoc, py_last_snoc, Hfl.
  cbn [negb].
  unfold limit_spinBox_setValue, after_comboBox_setCurrentIndex,
    limit_checkBox_setChecked, limitCheckBoxToggled, limitComboBoxChanged,
    afterComboBoxChanged.
  step_handler.
  destruct (Ascii.eqb_spec unit "K"%char) as [Hu | Hu];
    destruct (decide (unit = "K"%char)) as [Hd | Hd]; try congruence;
    destruct (decide (_ < after_comboBox_count (ui w))) as [Hc | Hc];
    repeat (match goal with
            | |- context [if ?c then _ else _] => destruct c eqn:?
            end; cbn);
    eexists; (split; [reflexivity|]); cbn; repeat split;
    repeat match goal with
    | H : bool_decide _ = true |- _ => apply bool_decide_eq_true_1 in H
    | H : (_ =? _) = true |- _ => apply Z.eqb_eq in H
    | H : (_ <? _) = true |- _ => apply Z.ltb_lt in H
    | H : (_ <? _) = false |- _ => apply Z.ltb_ge in H
    | H : Bool.eqb _ _ = true |- _ => apply Bool.eqb_prop in H
    end;
    repeat match goal with
    | H : context [if ?a <? ?b then _ else _] |- _ =>
        destruct (Z.ltb_spec0 a b)
    end;
    try assumption; try congruence; try lia.
Qed.

Lemma restore_limit_any (limit : string) (w : ProgressWindow V) :
  exists o w',
    restore_limit float_of_string limit w = (o, w', []) /\
    parent w' = parent w /\ gid w' = gid w /\ status w' = status w.
Proof.
  unfold restore_limit, limit_spinBox_setValue, after_comboBox_setCurrentIndex,
    limit_checkBox_setChecked, limitCheckBoxToggled, limitComboBoxChanged,
    afterComboBoxChanged.
  step_handler.
  destruct (String.eqb limit "0"); cbn; [eexists _, _; repeat split|].
  destruct (py_last limit); cbn; [|eexists _, _; repeat split].
  destruct (float_of_string (py_init limit)); cbn;
    [|eexists _, _; repeat split].
  repeat (match goal with
          | |- context [if ?c then _ else _] => destruct c eqn:?
          end; cbn);
    eexists _, _; repeat split.
Qed.

Lemma init_runs (parent0 : MainWindow) (gid0 : string) (ui0 : Widgets V) :
  exists o w' tr,
    ProgressWindow_init float_of_string env parent0 gid0 ui0 = (o, w', tr) /\
    parent w' = parent0 /\ gid w' = gid0 /\ status w' = PyNone /\
    omap thread_start tr = [] /\ Forall (targets gid0) tr.
Proof.
  run_constructor.
  destruct (translator_load env _);
    (destruct (searchGidInAddLinkTable env _) as [d|];
     [destruct (d !! "limit_value") as [v|]|]);
    try (eexists _, _, _; split; [reflexivity|]; cbn;
         repeat split; repeat constructor).
  all: match goal with
       | |- context [restore_limit _ ?l ?w0] =>
           destruct (restore_limit_any l w0) as (o & w' & Hr & Hp & Hg & Hs);
           rewrite Hr
       end.
  all: destruct o; eexists _, _, _; (split; [reflexivity|]); cbn;
       rewrite ?Hp, ?Hg, ?Hs; repeat split; repeat constructor.
Qed.

End Constructor.

(** *** afterPushButtonPressed: what a click can do *)

Section Click.

Context {V : Type}.
Variable env : Env.

(** The four ways a click can go. *)
Lemma after_shapes (fuel : nat) (w : ProgressWindow V) :
  (os_type env = OS_WINDOWS env /\
   afterPushButtonPressed env fuel w =
     (Returns tt,
      with_threadPool
        (threadPool (parent w) ++ [mkShutDownThread (gid w) None true])
        (button_off w),
      [EvThreadStart (mkShutDownThread (gid w) None true)])) \/
  (os_type env <> OS_WINDOWS env /\
   exists n, (n <= fuel)%nat /\ accepted_at env n /\
     afterPushButtonPressed env fuel w =
       (Returns tt,
        with_threadPool
          (threadPool (parent w) ++
           [mkShutDownThread (gid w) (Some (entered env n)) true])
          (button_off w),
        attempts_from env 0 (S n) ++
        [EvThreadStart
           (mkShutDownThread (gid w) (Some (entered env n)) true)])) \/
  (os_type env <> OS_WINDOWS env /\
   exists n w' tr, (n <= fuel)%nat /\ cancelled_at env n /\
     afterPushButtonPressed env fuel w =
       (Returns tt, w', attempts_from env 0 (S n) ++ tr) /\
     after_checkBox_checked (ui w') = false /\
     parent w' = parent w /\ gid w' = gid w /\ status w' = status w /\
     (tr = [] \/ tr = [EvUpdateSingleTable (shutdown_canceled_dict (gid w))])) \/
  (os_type env <> OS_WINDOWS env /\
   (forall k, (k <= fuel)%nat -> asks_again env k = true) /\
   afterPushButtonPressed env fuel w =
     (OutOfFuel, button_off w, attempts_from env 0 (S fuel))).
Proof.
  destruct (decide (os_type env = OS_WINDOWS env)) as [Hos | Hos].
  { left. split; [exact Hos | apply after_windows; exact Hos]. }
  right.
  destruct (dialogue_cases env fuel) as [(n & Hn & [Hcan | Hacc]) | Hall].
  - right. left. split; [exact Hos|].
    destruct (uncheck_runs (button_off w))
      as (w' & tr & Hun & Hc & Hp & Hg & Hs & _ & Htr).
    exists n, w', tr. split; [exact Hn|]. split; [exact Hcan|].
    rewrite (after_cancelled env n fuel w Hos Hcan Hn), Hun.
    repeat split; assumption.
  - left. split; [exact Hos|]. exists n. split; [exact Hn|].
    split; [exact Hacc|]. apply after_accepted; assumption.
  - right. right. split; [exact Hos|]. split; [exact Hall|].
    apply after_starved; assumption.
Qed.

(** C7: off Windows, a ShutDownThread is started only right after a sudo
    child, fed a password that a dialog returned, has exited with status 0,
    and that password is the thread's; when the first prompt or a retry
    prompt is cancelled, the call returns without starting a thread, the
    pool is as before and after_checkBox is unchecked. *)
Theorem thread_only_after_sudo (fuel : nat) (w : ProgressWindow V) :
  os_type env <> OS_WINDOWS env ->
  let r := afterPushButtonPressed env fuel w in
  (forall t, EvThreadStart t ∈ trace_of r ->
     exists pre p k,
       trace_of r = pre ++ [EvCommunicate p; EvWait 0; EvThreadStart t] /\
       omap thread_start pre = [] /\
       thread_password t = Some p /\
       getText env k = (p, true) /\ sudo_wait env k p = 0) /\
  (forall n, (n <= fuel)%nat -> cancelled_at env n ->
     outcome_of r = Returns tt /\
     omap thread_start (trace_of r) = [] /\
     threadPool (parent (window_of r)) = threadPool (parent w) /\
     after_checkBox_checked (ui (window_of r)) = false).
Proof.
  intros Hos r. subst r. split.
  - intros t Hin.
    destruct (after_shapes fuel w)
      as [[Hw _] | [(_ & n & Hn & Hacc & Hr) | [(_ & n & w' & tr & Hn & Hcan
            & Hr & _ & _ & _ & _ & Htr) | (_ & Hall & Hr)]]];
      [congruence | | |]; rewrite Hr in Hin |- *; unfold trace_of in *;
      cbn [snd] in *; apply thread_start_elem in Hin;
      rewrite ?omap_app, ?attempts_no_thread in Hin.
    + cbn in Hin. apply list_elem_of_singleton in Hin. subst t.
      destruct Hacc as (_ & Hc & Hs).
      unfold sudo_accepts in Hs. apply Z.eqb_eq in Hs.
      exists (attempts_from env 0 n ++
              [EvGetText "PassWord" (prompt_label n) (getText env n);
               EvPopen ["sudo"; "-S"; "echo"; "hello"]]),
        (entered env n), n.
      split; [|split; [|split; [|split]]].
      * rewrite attempts_from_snoc. cbn [Nat.add].
        unfold attempt_events. rewrite Hc, Hs, <- !app_assoc. reflexivity.
      * rewrite omap_app, attempts_no_thread. reflexivity.
      * reflexivity.
      * unfold entered, confirmed in *.
        destruct (getText env n) as [p ok]. cbn in *. congruence.
      * exact Hs.
    + destruct Htr as [-> | ->]; cbn in Hin; inversion Hin.
    + inversion Hin.
  - intros n Hn Hcan.
    rewrite (after_cancelled env n fuel w Hos Hcan Hn).
    destruct (uncheck_runs (button_off w))
      as (w' & tr & Hun & Hc & Hp & _ & _ & _ & Htr).
    rewrite Hun. unfold outcome_of, trace_of, window_of. cbn [fst snd].
    split; [reflexivity|]. split; [|split].
    + rewrite omap_app, attempts_no_thread.
      destruct Htr as [-> | ->]; reflexivity.
    + rewrite Hp. reflexivity.
    + exact Hc.
Qed.

(** C10, as the code has it: on Windows the call returns at once. Elsewhere
    it returns when some prompt is cancelled or answered with a password
    that sudo accepts, after showing the prompts up to that one and none
    after it; before that prompt the loop is still running, and it runs for
    ever when every prompt is answered with a password that sudo rejects. *)
Theorem after_button_returns_when_dialogue_ends (fuel : nat)
  (w : ProgressWindow V) :
  let r := afterPushButtonPressed env fuel w in
  (os_type env = OS_WINDOWS env -> outcome_of r = Returns tt) /\
  (os_type env <> OS_WINDOWS env ->
   forall n, cancelled_at env n \/ accepted_at env n ->
     ((n <= fuel)%nat ->
        outcome_of r = Returns tt /\
        omap dialog_shown (trace_of r) = map (getText env) (seq 0 (S n))) /\
     ((fuel < n)%nat -> outcome_of r = OutOfFuel)) /\
  (os_type env <> OS_WINDOWS env ->
   (forall k, asks_again env k = true) -> outcome_of r = OutOfFuel).
Proof.
  intros r. subst r. split; [|split].
  - intros Hos. rewrite after_windows by exact Hos. reflexivity.
  - intros Hos n Hend. split.
    + intros Hn. destruct Hend as [Hcan | Hacc].
      * rewrite (after_cancelled env n fuel w Hos Hcan Hn).
        destruct (uncheck_runs (button_off w))
          as (w' & tr & Hun & _ & _ & _ & _ & _ & Htr).
        rewrite Hun. unfold outcome_of, trace_of. cbn [fst snd].
        split; [reflexivity|].
        rewrite omap_app, attempts_dialogs.
        destruct Htr as [-> | ->]; (etrans; [|apply app_nil_r]); reflexivity.
      * rewrite (after_accepted env n fuel w Hos Hacc Hn).
        unfold outcome_of, trace_of. cbn [fst snd].
        split; [reflexivity|].
        rewrite omap_app, attempts_dialogs.
        etrans; [|apply app_nil_r]. reflexivity.
    + intros Hn. rewrite after_starved; [reflexivity | exact Hos |].
      intros k Hk.
      destruct Hend as [[Hb _] | [Hb _]]; apply Hb; lia.
  - intros Hos Hall. rewrite after_starved; [reflexivity | exact Hos |].
    intros k _. apply Hall.
Qed.

End Click.

(** *** The whole class *)

Section Class.

Context {V : Type} `{EqDecision V}.
Variable str_of_value : V -> string.
Variable float_of_string : string -> option V.

(** C4: one call of afterPushButtonPressed starts at most one
    ShutDownThread, and what it starts is what it appends to
    parent.threadPool: exactly one thread on Windows, exactly one once sudo
    has accepted a password, none when the user cancels. No other method,
    and not the constructor, starts a thread or touches the pool. *)
Theorem one_thread_per_click (env : Env) (fuel : nat) (w : ProgressWindow V) :
  let r := afterPushButtonPressed env fuel w in
  (length (omap thread_start (trace_of r)) <= 1)%nat /\
  threadPool (parent (window_of r))
    = threadPool (parent w) ++ omap thread_start (trace_of r) /\
  Forall (fun t => thread_started t = true /\ thread_gid t = gid w)
    (omap thread_start (trace_of r)) /\
  (os_type env = OS_WINDOWS env ->
     omap thread_start (trace_of r) = [mkShutDownThread (gid w) None true]) /\
  (os_type env <> OS_WINDOWS env ->
   forall n, (n <= fuel)%nat ->
     (accepted_at env n ->
        omap thread_start (trace_of r)
          = [mkShutDownThread (gid w) (Some (entered env n)) true]) /\
     (cancelled_at env n -> omap thread_start (trace_of r) = [])) /\
  (forall m, m <> AfterPushButtonPressed ->
     omap thread_start (trace_of (call str_of_value env fuel m w)) = [] /\
     parent (window_of (call str_of_value env fuel m w)) = parent w) /\
  (forall parent0 gid0 ui0,
     omap thread_start
       (trace_of (ProgressWindow_init float_of_string env parent0 gid0 ui0))
       = [] /\
     parent (window_of
               (ProgressWindow_init float_of_string env parent0 gid0 ui0))
       = parent0).
Proof.
  intros r. subst r.
  split; [|split; [|split; [|split; [|split; [|split]]]]].
  - destruct (after_shapes env fuel w)
      as [[_ Hr] | [(_ & n & _ & _ & Hr) | [(_ & n & w' & tr & _ & _
            & Hr & _ & _ & _ & _ & Htr) | (_ & _ & Hr)]]];
      rewrite Hr; unfold trace_of; cbn [snd];
      rewrite ?omap_app, ?attempts_no_thread;
      try destruct Htr as [-> | ->]; cbn; lia.
  - destruct (after_shapes env fuel w)
      as [[_ Hr] | [(_ & n & _ & _ & Hr) | [(_ & n & w' & tr & _ & _
            & Hr & _ & Hp & _ & _ & Htr) | (_ & _ & Hr)]]];
      rewrite Hr; unfold trace_of, window_of; cbn [fst snd];
      rewrite ?omap_app, ?attempts_no_thread;
      try destruct Htr as [-> | ->]; cbn; rewrite ?Hp, ?app_nil_r;
      reflexivity.
  - destruct (after_shapes env fuel w)
      as [[_ Hr] | [(_ & n & _ & _ & Hr) | [(_ & n & w' & tr & _ & _
            & Hr & _ & _ & _ & _ & Htr) | (_ & _ & Hr)]]];
      rewrite Hr; unfold trace_of; cbn [snd];
      rewrite ?omap_app, ?attempts_no_thread;
      try destruct Htr as [-> | ->]; cbn; repeat constructor.
  - intros Hos. rewrite after_windows by exact Hos. reflexivity.
  - intros Hos n Hn. split.
    + intros Hacc. rewrite (after_accepted env n fuel w Hos Hacc Hn).
      unfold trace_of. cbn [snd].
      rewrite omap_app, attempts_no_thread. reflexivity.
    + intros Hcan. rewrite (after_cancelled env n fuel w Hos Hcan Hn).
      destruct (uncheck_runs (button_off w))
        as (w' & tr & Hun & _ & _ & _ & _ & _ & Htr).
      rewrite Hun. unfold trace_of. cbn [snd].
      rewrite omap_app, attempts_no_thread.
      destruct Htr as [-> | ->]; reflexivity.
  - intros m Hm.
    destruct (call_other str_of_value env fuel m w Hm)
      as (w' & tr & Hr & Hp & _ & _ & Hth & _).
    rewrite Hr. split; assumption.
  - intros parent0 gid0 ui0.
    destruct (init_runs float_of_string env parent0 gid0 ui0)
      as (o & w' & tr & Hr & Hp & _ & _ & Hth & _).
    rewrite Hr. split; assumption.
Qed.

Lemma call_keeps_gid (env : Env) (fuel : nat) (m : Method)
  (w : ProgressWindow V) :
  gid (window_of (call str_of_value env fuel m w)) = gid w /\
  Forall (targets (gid w)) (trace_of (call str_of_value env fuel m w)).
Proof.
  assert (Hm : m = AfterPushButtonPressed \/ m <> AfterPushButtonPressed)
    by (destruct m; first [left; reflexivity | right; discriminate]).
  destruct Hm as [-> | Hm].
  - cbn [call].
    destruct (after_shapes env fuel w)
      as [[_ Hr] | [(_ & n & _ & _ & Hr) | [(_ & n & w' & tr & _ & _
            & Hr & _ & _ & Hg & _ & Htr) | (_ & _ & Hr)]]];
      rewrite Hr; unfold trace_of, window_of; cbn [fst snd];
      (split; [first [exact Hg | reflexivity]|]);
      rewrite ?Forall_app; repeat split;
      try apply attempts_targets; try (repeat constructor; fail).
    destruct Htr as [-> | ->]; repeat constructor;
      apply shutdown_canceled_dict_lookup.
  - destruct (call_other str_of_value env fuel m w Hm)
      as (w' & tr & Hr & _ & Hg & _ & _ & Ht).
    rewrite Hr. split; assumption.
Qed.

Lemma run_keeps_gid (steps : list Step) :
  forall w : ProgressWindow V,
    gid (window_of (run str_of_value steps w)) = gid w /\
    Forall (targets (gid w)) (trace_of (run str_of_value steps w)).
Proof.
  induction steps as [|[env fuel m | v] steps IH]; intros w; cbn [run].
  - split; [reflexivity | constructor].
  - destruct (call_keeps_gid env fuel m w) as [Hg Ht].
    destruct (call str_of_value env fuel m w) as [[o w1] t1].
    unfold window_of, trace_of in Hg, Ht. cbn [fst snd] in Hg, Ht.
    destruct o as [[] | e |]; [| split; assumption | split; assumption].
    destruct (IH w1) as [Hg2 Ht2].
    destruct (run str_of_value steps w1) as [[o2 w2] t2].
    unfold window_of, trace_of in *. cbn [fst snd] in *.
    rewrite Hg in Hg2, Ht2. split; [exact Hg2|].
    apply Forall_app. split; assumption.
  - apply (IH (set_status v w)).
Qed.

(** C5: the constructor stores its gid argument, no method and no sequence
    of methods and status assignments changes it, and every event of a run
    that names a download task (aria2 calls, database writes and the lookup,
    the thread that is started) names that gid. *)
Theorem gid_is_fixed (env : Env) (parent0 : MainWindow) (gid0 : string)
  (ui0 : Widgets V) (steps : list Step) :
  let made := ProgressWindow_init float_of_string env parent0 gid0 ui0 in
  let r := run str_of_value steps (window_of made) in
  gid (window_of made) = gid0 /\
  Forall (targets gid0) (trace_of made) /\
  gid (window_of r) = gid0 /\
  Forall (targets gid0) (trace_of r) /\
  (forall env' fuel m (w : ProgressWindow V),
     gid (window_of (call str_of_value env' fuel m w)) = gid w /\
     Forall (targets (gid w))
       (trace_of (call str_of_value env' fuel m w))).
Proof.
  intros made r. subst made r.
  destruct (init_runs float_of_string env parent0 gid0 ui0)
    as (o & w' & tr & Hr & _ & Hg & _ & _ & Ht).
  rewrite Hr. unfold window_of at 1 2 4, trace_of at 1. cbn [fst snd].
  destruct (run_keeps_gid steps w') as [Hg2 Ht2]. rewrite Hg in Hg2, Ht2.
  repeat split; try assumption; apply call_keeps_gid.
Qed.


End Class.

(** *** The model at work on the concrete windows *)

Example resume_when_aria2_is_down :
  resumePushButtonPressed aria2_down (sample_window (PyStr "paused")) =
    (Returns tt, sample_window (PyStr "paused"),
     [EvDownloadUnpause "gid01"; EvAria2Version; EvAria2Disconnected;
      EvNotifySend (Tr ui_tr "Aria2 disconnected!")
        (Tr ui_tr "Persepolis is trying to connect! be patient!")
        10000 "warning"]).
Proof. reflexivity. Qed.

Example resume_when_not_paused :
  resumePushButtonPressed aria2_down (sample_window (PyStr "downloading")) =
    (Returns tt, sample_window (PyStr "downloading"), []).
Proof. reflexivity. Qed.

Example stop_when_downloadStop_returns_None :
  trace_of (stopPushButtonPressed aria2_down (sample_window PyNone)) =
    [EvUpdateSingleTable (shutdown_canceled_dict "gid01");
     EvDownloadStop "gid01"].
Proof. reflexivity. Qed.

Example limit_of_a_running_download :
  trace_of
    (limitPushButtonPressed sample_str (sample_window (PyStr "downloading")))
    = [EvLimitSpeed "gid01" "100K"].
Proof. vm_compute. reflexivity. Qed.

Example limit_of_a_scheduled_download :
  trace_of
    (limitPushButtonPressed sample_str (sample_window (PyStr "scheduled")))
    = [EvUpdateAddLinkTable [limit_value_dict "gid01" "100K"]].
Proof. vm_compute. reflexivity. Qed.

Example third_password_is_accepted :
  threadPool
    (parent (window_of
               (afterPushButtonPressed third_time_lucky 2
                  (sample_window PyNone))))
    = [mkShutDownThread "gid01" (Some "s3cret") true].
Proof. reflexivity. Qed.

Example windows_needs_no_password :
  afterPushButtonPressed aria2_down 0 (sample_window PyNone) =
    (Returns tt,
     with_threadPool [mkShutDownThread "gid01" None true]
       (button_off (sample_window PyNone)),
     [EvThreadStart (mkShutDownThread "gid01" None true)]).
Proof. reflexivity. Qed.

Example constructor_without_a_row :
  outcome_of
    (ProgressWindow_init sample_float aria2_down (mkMainWindow []) "gid01"
       fresh_ui)
    = Raises TypeError.
Proof. reflexivity. Qed.

Example constructor_with_limit_2M :
  let w := window_of
             (ProgressWindow_init sample_float gives_up (mkMainWindow [])
                "gid01" fresh_ui) in
  (limit_spinBox_value (ui w), limit_checkBox_checked (ui w),
   after_comboBox_currentIndex (ui w), limit_comboBox_currentText (ui w),
   limit_frame_enabled (ui w))
  = (2, true, -1, "KiB/s", true).
Proof. vm_compute. reflexivity. Qed.

(** The user of [gives_up] cancels the second prompt: no thread, and the
    check box ends unchecked. *)
Lemma thread_only_after_sudo_witness :
  os_type gives_up <> OS_WINDOWS gives_up /\
  cancelled_at gives_up 1 /\
  omap thread_start
    (trace_of (afterPushButtonPressed gives_up 1 (sample_window PyNone)))
    = [] /\
  after_checkBox_checked
    (ui (window_of
           (afterPushButtonPressed gives_up 1 (sample_window PyNone))))
    = false.
Proof.
  assert (Hos : os_type gives_up <> OS_WINDOWS gives_up) by discriminate.
  assert (Hcan : cancelled_at gives_up 1).
  { split; [|reflexivity].
    intros k Hk. destruct k as [|k]; [reflexivity | lia]. }
  split; [exact Hos|]. split; [exact Hcan|].
  destruct (thread_only_after_sudo gives_up 1 (sample_window PyNone) Hos)
    as [_ Hnone].
  destruct (Hnone 1%nat (le_n 1) Hcan) as (_ & Hth & _ & Hbox).
  split; [exact Hth | exact Hbox].
Defined.



(** C10 does not hold as the specification words it: every dialog returns and every sudo child exits,
    yet with the user of [stubborn] the call never returns. *)
Lemma stubborn_never_returns :
  ~ exists fuel,
      outcome_of (afterPushButtonPressed stubborn fuel (sample_window PyNone))
      <> OutOfFuel.
Proof.
  intros [fuel Hret]. apply Hret.
  rewrite after_starved; [reflexivity | discriminate |].
  intros k _. reflexivity.
Qed.

(** With the user of [third_time_lucky] the call returns after three
    prompts, and not with fuel for fewer. *)
Lemma after_button_returns_witness :
  outcome_of
    (afterPushButtonPressed third_time_lucky 2 (sample_window PyNone))
    = Returns tt /\
  length
    (omap dialog_shown
       (trace_of
          (afterPushButtonPressed third_time_lucky 2 (sample_window PyNone))))
    = 3%nat /\
  outcome_of
    (afterPushButtonPressed third_time_lucky 1 (sample_window PyNone))
    = OutOfFuel.
Proof.
  assert (Hos : os_type third_time_lucky <> OS_WINDOWS third_time_lucky)
    by discriminate.
  assert (Hacc : accepted_at third_time_lucky 2).
  { split; [|split; reflexivity].
    intros k Hk. destruct k as [|[|k]]; [reflexivity | reflexivity | lia]. }
  destruct (after_button_returns_when_dialogue_ends third_time_lucky 2
              (sample_window PyNone)) as (_ & Hend & _).
  destruct (Hend Hos 2%nat (or_intror Hacc)) as [Hret _].
  destruct (Hret (le_n 2)) as [Ho Hd].
  destruct (after_button_returns_when_dialogue_ends third_time_lucky 1
              (sample_window PyNone)) as (_ & Hend1 & _).
  destruct (Hend1 Hos 2%nat (or_intror Hacc)) as [_ Hloop].
  split; [exact Ho|]. split; [rewrite Hd; reflexivity|].
  apply Hloop. lia.
Defined.

(** * More of the class *)

(** ** The constructor: the stored limit, failures, geometry *)

Lemma py_init_last (s : string) :
  match py_last s with
  | Some c => py_init s +:+ String c "" = s
  | None => s = ""
  end.
Proof.
  induction s as [|a s IH]; [reflexivity|].
  destruct s as [|b s]; [reflexivity|].
  change (py_last (String a (String b s))) with (py_last (String b s)).
  change (py_init (String a (String b s)))
    with (String a (py_init (String b s))).
  destruct (py_last (String b s)) as [c|]; [|discriminate].
  change (String a (py_init (String b s)) +:+ String c "")
    with (String a (py_init (String b s) +:+ String c "")).
  rewrite IH. reflexivity.
Qed.

(** X1: [limit[:-1]] and [limit[-1]] cut the stored string into two parts
    that lose nothing: put together again they give the string back, and
    there is no last character exactly when the string is empty. *)
Theorem limit_splits_without_loss (s : string) :
  (forall c, py_last s = Some c -> py_init s +:+ String c "" = s) /\
  (py_last s = None <-> s = "") /\
  (forall prefix c,
     py_init (prefix +:+ String c "") = prefix /\
     py_last (prefix +:+ String c "") = Some c).
Proof.
  pose proof (py_init_last s) as Hs.
  split; [|split].
  - intros c Hc. rewrite Hc in Hs. exact Hs.
  - split.
    + intros Hn. rewrite Hn in Hs. exact Hs.
    + intros ->. reflexivity.
  - intros prefix c. split; [apply py_init_snoc | apply py_last_snoc].
Qed.

Section ConstructorMore.

Context {V : Type} `{EqDecision V}.
Variable str_of_value : V -> string.
Variable float_of_string : string -> option V.
Variable env : Env.

Lemma restore_limit_zero (w : ProgressWindow V) :
  restore_limit float_of_string "0" w = (Returns tt, w, []).
Proof. reflexivity. Qed.

Lemma restore_limit_empty (w : ProgressWindow V) :
  restore_limit float_of_string "" w = (Raises IndexError, w, []).
Proof. reflexivity. Qed.

Lemma restore_limit_unparsed (limit : string) (w : ProgressWindow V) :
  limit <> "0" -> limit <> "" ->
  float_of_string (py_init limit) = None ->
  restore_limit float_of_string limit w = (Raises ValueError, w, []).
Proof.
  intros H0 He Hf. apply String.eqb_neq in H0.
  unfold restore_limit. rewrite H0. cbn [negb].
  pose proof (py_init_last limit) as Hl.
  destruct (py_last limit) as [c|]; [|congruence].
  rewrite Hf. reflexivity.
Qed.

Lemma restore_limit_parsed (limit : string) (x : V) (w : ProgressWindow V) :
  limit <> "0" -> limit <> "" ->
  float_of_string (py_init limit) = Some x ->
  exists w',
    restore_limit float_of_string limit w = (Returns tt, w', []) /\
    parent w' = parent w /\ gid w' = gid w /\ status w' = status w /\
    connections w' = connections w /\
    limit_spinBox_value (ui w') = x /\
    limit_checkBox_checked (ui w') = true /\
    limit_comboBox_currentText (ui w') = limit_comboBox_currentText (ui w).
Proof.
  intros H0 He Hf.
  pose proof (py_init_last limit) as Hl.
  destruct (py_last limit) as [c|]; [|congruence].
  rewrite <- Hl in H0.
  destruct (restore_limit_runs float_of_string (py_init limit) c x w H0 Hf)
    as (w' & Hr & Hp & Hg & Hs & Hc & Hx & Hb & _ & Ht).
  rewrite Hl in Hr. exists w'. repeat split; assumption.
Qed.

Lemma init_unfold (parent0 : MainWindow) (gid0 : string) (ui0 : Widgets V) :
  ProgressWindow_init float_of_string env parent0 gid0 ui0 =
    match searchGidInAddLinkTable env gid0 with
    | None =>
        (Raises TypeError, before_restore parent0 gid0 ui0,
         before_restore_trace env gid0)
    | Some d =>
        match d !! "limit_value" with
        | None =>
            (Raises KeyError, before_restore parent0 gid0 ui0,
             before_restore_trace env gid0)
        | Some v =>
            match restore_limit float_of_string (py_str v)
                    (before_restore parent0 gid0 ui0) with
            | (Returns _, w1, t1) =>
                (Returns tt, after_restore env w1,
                 before_restore_trace env gid0 ++ t1)
            | (Raises e, w1, t1) =>
                (Raises e, w1, before_restore_trace env gid0 ++ t1)
            | (OutOfFuel, w1, t1) =>
                (OutOfFuel, w1, before_restore_trace env gid0 ++ t1)
            end
        end
    end.
Proof.
  run_constructor. cbn [gid]. unfold before_restore_trace.
  destruct (translator_load env _);
    (destruct (searchGidInAddLinkTable env gid0) as [d|]; [|reflexivity]);
    (destruct (d !! "limit_value") as [v|]; [|reflexivity]);
    fold (before_restore parent0 gid0 ui0);
    destruct (restore_limit float_of_string (py_str v)
                (before_restore parent0 gid0 ui0)) as [[[[]|e|] w1] t1];
    cbn [app]; rewrite ?app_nil_r; reflexivity.
Qed.

Lemma restore_limit_cases (limit : string) (w : ProgressWindow V) :
  (exists w', restore_limit float_of_string limit w = (Returns tt, w', []) /\
     parent w' = parent w /\ gid w' = gid w /\ status w' = status w) \/
  restore_limit float_of_string limit w = (Raises IndexError, w, []) \/
  restore_limit float_of_string limit w = (Raises ValueError, w, []).
Proof.
  destruct (decide (limit = "0")) as [-> | H0].
  { left. exists w. rewrite restore_limit_zero. repeat split. }
  destruct (decide (limit = "")) as [-> | He].
  { right. left. apply restore_limit_empty. }
  destruct (float_of_string (py_init limit)) as [x|] eqn:Hf.
  - left. destruct (restore_limit_parsed limit x w H0 He Hf)
      as (w' & Hr & Hp & Hg & Hs & _).
    exists w'. repeat split; assumption.
  - right. right. apply restore_limit_unparsed; assumption.
Qed.

(** X2: the constructor raises TypeError when the task has no row,
    KeyError when the row has no limit_value, IndexError when the stored
    limit is the empty string and ValueError when it is neither '0' nor a
    number followed by one character. A constructor that raises has
    disabled both frames and connected the first seven signals, and has
    neither restored a limit nor connected the last three signals nor set
    the window geometry. *)
Theorem constructor_failures (parent0 : MainWindow) (gid0 : string)
  (ui0 : Widgets V) :
  let r := ProgressWindow_init float_of_string env parent0 gid0 ui0 in
  (searchGidInAddLinkTable env gid0 = None ->
     outcome_of r = Raises TypeError) /\
  (forall d, searchGidInAddLinkTable env gid0 = Some d ->
     d !! "limit_value" = None -> outcome_of r = Raises KeyError) /\
  (forall d v, searchGidInAddLinkTable env gid0 = Some d ->
     d !! "limit_value" = Some v ->
     (py_str v = "" -> outcome_of r = Raises IndexError) /\
     (py_str v <> "0" -> py_str v <> "" ->
      float_of_string (py_init (py_str v)) = None ->
        outcome_of r = Raises ValueError)) /\
  (outcome_of r <> Returns tt ->
     window_of r = before_restore parent0 gid0 ui0 /\
     limit_frame_enabled (ui (window_of r)) = false /\
     after_frame_enabled (ui (window_of r)) = false /\
     limit_spinBox_value (ui (window_of r)) = limit_spinBox_value ui0 /\
     limit_checkBox_checked (ui (window_of r)) = limit_checkBox_checked ui0 /\
     window_size (ui (window_of r)) = window_size ui0 /\
     window_pos (ui (window_of r)) = window_pos ui0 /\
     limit_checkBox_toggled (connections (window_of r)) = true /\
     limit_spinBox_valueChanged (connections (window_of r)) = false).
Proof.
  intros r. subst r. rewrite init_unfold.
  split; [|split; [|split]].
  - intros ->. reflexivity.
  - intros d -> ->. reflexivity.
  - intros d v -> ->. split.
    + intros ->. rewrite restore_limit_empty. reflexivity.
    + intros H0 He Hf. rewrite restore_limit_unparsed by assumption.
      reflexivity.
  - destruct (searchGidInAddLinkTable env gid0) as [d|];
      [destruct (d !! "limit_value") as [v|]|];
      [| intros _; repeat split | intros _; repeat split].
    destruct (restore_limit_cases (py_str v)
                (before_restore parent0 gid0 ui0))
      as [(w' & Hr & _) | [Hr | Hr]]; rewrite Hr.
    + intros Hno. exfalso. apply Hno. reflexivity.
    + intros _. repeat split.
    + intros _. repeat split.
Qed.

(** X3: with a stored limit of '0', as a string or as the integer 0, the
    constructor returns, has asked only for the locale, the translation and
    the task's row, and leaves the limit widgets as the UI built them: both
    frames disabled, the progress bar at 0, all ten signals connected and
    the status None. *)
Theorem constructor_without_limit (parent0 : MainWindow) (gid0 : string)
  (ui0 : Widgets V) (d : gmap string PyVal) (v : PyVal) :
  searchGidInAddLinkTable env gid0 = Some d ->
  d !! "limit_value" = Some v ->
  py_str v = "0" ->
  let r := ProgressWindow_init float_of_string env parent0 gid0 ui0 in
  outcome_of r = Returns tt /\
  trace_of r = before_restore_trace env gid0 /\
  limit_spinBox_value (ui (window_of r)) = limit_spinBox_value ui0 /\
  limit_checkBox_checked (ui (window_of r)) = limit_checkBox_checked ui0 /\
  after_comboBox_currentIndex (ui (window_of r))
    = after_comboBox_currentIndex ui0 /\
  limit_pushButton_enabled (ui (window_of r))
    = limit_pushButton_enabled ui0 /\
  limit_frame_enabled (ui (window_of r)) = false /\
  after_frame_enabled (ui (window_of r)) = false /\
  download_progressBar_value (ui (window_of r)) = 0 /\
  connections (window_of r) = all_connected /\
  status (window_of r) = PyNone.
Proof.
  intros Hsearch Hlookup Hv r. subst r.
  rewrite init_unfold, Hsearch, Hlookup, Hv, restore_limit_zero.
  unfold outcome_of, trace_of, window_of. cbn [fst snd].
  rewrite app_nil_r. repeat split.
Qed.

(** X4: a constructor that returns sizes and places the window from the
    settings, with 595 x 274 at (300, 300) when they hold nothing; so a
    window built from the settings that closeEvent of an earlier window
    wrote has that window's size and position. *)
Theorem geometry_survives_reopening (parent0 : MainWindow) (gid0 : string)
  (ui0 : Widgets V) :
  let r := ProgressWindow_init float_of_string env parent0 gid0 ui0 in
  outcome_of r = Returns tt ->
  window_size (ui (window_of r)) = default (595, 274) (settings_size env) /\
  window_pos (ui (window_of r))
    = default (300, 300) (settings_position env) /\
  (forall old : ProgressWindow V,
     settings_size env
       = saved_setting "ProgressWindow/size" (trace_of (closeEvent old)) ->
     settings_position env
       = saved_setting "ProgressWindow/position" (trace_of (closeEvent old)) ->
     window_size (ui (window_of r)) = window_size (ui old) /\
     window_pos (ui (window_of r)) = window_pos (ui old)).
Proof.
  intros r. subst r. rewrite init_unfold.
  assert (Hgeo : forall w1 : ProgressWindow V,
            window_size (ui (after_restore env w1))
              = default (595, 274) (settings_size env) /\
            window_pos (ui (after_restore env w1))
              = default (300, 300) (settings_position env))
    by (intros w1; split; reflexivity).
  destruct (searchGidInAddLinkTable env gid0) as [d|];
    [destruct (d !! "limit_value") as [v|]|]; try discriminate.
  destruct (restore_limit float_of_string (py_str v)
              (before_restore parent0 gid0 ui0)) as [[[[]|e|] w1] t1];
    try discriminate.
  intros _. unfold window_of. cbn [fst snd].
  destruct (Hgeo w1) as [Hs Hp]. split; [exact Hs|]. split; [exact Hp|].
  intros old Hsize Hpos. rewrite Hs, Hp, Hsize, Hpos. split; reflexivity.
Qed.

(** X5: the constructor only reads: whatever the row holds, it makes no
    aria2 call, writes to no database, shows no dialog, spawns no child
    process and starts no thread, and it asks for the row of its own gid
    exactly once. *)
Theorem constructor_only_reads (parent0 : MainWindow) (gid0 : string)
  (ui0 : Widgets V) :
  let tr := trace_of
              (ProgressWindow_init float_of_string env parent0 gid0 ui0) in
  Forall (fun e => is_rpc e = false /\ is_db_write e = false) tr /\
  omap dialog_shown tr = [] /\
  omap popen_call tr = [] /\
  omap thread_start tr = [] /\
  omap (fun e => match e with
                 | EvSearchGidInAddLinkTable g => Some g
                 | _ => None
                 end) tr = [gid0].
Proof.
  intros tr. subst tr.
  assert (Hpre : exists o w',
            ProgressWindow_init float_of_string env parent0 gid0 ui0
              = (o, w', before_restore_trace env gid0)).
  { rewrite init_unfold.
    destruct (searchGidInAddLinkTable env gid0) as [d|];
      [destruct (d !! "limit_value") as [v|]|];
      try (eexists _, _; reflexivity).
    destruct (restore_limit_cases (py_str v)
                (before_restore parent0 gid0 ui0))
      as [(w' & Hr & _) | [Hr | Hr]]; rewrite Hr, app_nil_r;
      eexists _, _; reflexivity. }
  destruct Hpre as (o & w' & Hr). rewrite Hr.
  unfold trace_of, before_restore_trace. cbn [snd].
  destruct (translator_load env _); repeat split; repeat constructor.
Qed.

End ConstructorMore.


(** ** The handlers: what they leave alone *)

Section HandlersMore.

Context {V : Type}.
Variable str_of_value : V -> string.

Lemma limit_button_runs (w : ProgressWindow V) :
  limitPushButtonPressed str_of_value w =
    (Returns tt, with_ui (set_limit_pushButton_enabled false) w,
     if py_eq_str (status w) "scheduled" then
       [EvUpdateAddLinkTable
          [limit_value_dict (gid w) (spec_limit_value str_of_value w)]]
     else [EvLimitSpeed (gid w) (spec_limit_value str_of_value w)]).
Proof.
  unfold limitPushButtonPressed, spec_limit_value. step_handler.
  destruct (String.eqb_spec (limit_comboBox_currentText (ui w)) "KiB/s");
    case_decide; try congruence;
    destruct (py_eq_str (status w) "scheduled"); reflexivity.
Qed.

Lemma uncheck_eq (w : ProgressWindow V) :
  after_checkBox_setChecked false w =
    if after_checkBox_checked (ui w) then
      if after_checkBox_toggled (connections w) then
        (Returns tt,
         with_ui (set_after_frame_enabled false)
           (with_ui (set_after_checkBox_checked false) w),
         [EvUpdateSingleTable (shutdown_canceled_dict (gid w))])
      else (Returns tt, with_ui (set_after_checkBox_checked false) w, [])
    else (Returns tt, w, []).
Proof.
  unfold after_checkBox_setChecked, afterCheckBoxToggled. step_handler.
  destruct (after_checkBox_checked (ui w)); cbn; [|reflexivity].
  destruct (after_checkBox_toggled (connections w)); reflexivity.
Qed.

Lemma attempts_communicated (env : Env) (c : nat) :
  forall m,
    omap communicated (attempts_from env m c)
      = omap typed (map (getText env) (seq m c)) /\
    omap popen_call (attempts_from env m c)
      = map (fun _ => ["sudo"; "-S"; "echo"; "hello"])
          (omap typed (map (getText env) (seq m c))).
Proof.
  induction c as [|c IH]; intros m; cbn [attempts_from seq map];
    [split; reflexivity|].
  destruct (IH (S m)) as [IHc IHp].
  rewrite !omap_app, IHc, IHp.
  unfold attempt_events, confirmed, entered, typed.
  destruct (getText env m) as [p [|]]; split; reflexivity.
Qed.

Lemma attempts_quiet (env : Env) (c : nat) :
  forall m,
    Forall (fun e => is_rpc e = false /\ is_db_write e = false)
      (attempts_from env m c).
Proof.
  induction c as [|c IH]; intros m; cbn [attempts_from]; [constructor|].
  apply Forall_app. split; [|apply IH].
  unfold attempt_events. destruct (confirmed env m); repeat constructor.
Qed.

Lemma no_dialog_no_complaint (prev : option Event) (tail : list Event) :
  omap dialog_shown tail = [] ->
  prompts_follow_rejections prev tail = true.
Proof.
  revert prev. induction tail as [|e tail IH]; intros prev Hno;
    [reflexivity|].
  destruct e; try discriminate; cbn in Hno |- *; apply IH; exact Hno.
Qed.

Lemma attempts_follow_rejections (env : Env) (c : nat) :
  forall (m : nat) (prev : option Event) (tail : list Event),
    (forall k, (m <= k)%nat -> (S k < m + c)%nat ->
       asks_again env k = true) ->
    (m = 0%nat \/ exists a, prev = Some (EvWait a) /\ a <> 0) ->
    omap dialog_shown tail = [] ->
    prompts_follow_rejections prev (attempts_from env m c ++ tail) = true.
Proof.
  induction c as [|c IH]; intros m prev tail Hagain Hprev Htail.
  { apply no_dialog_no_complaint. exact Htail. }
  cbn [attempts_from]. rewrite <- app_assoc.
  assert (Hhead : (if String.eqb (prompt_label m) wrong_password_label
                   then match prev with
                        | Some (EvWait a) => negb (a =? 0)
                        | _ => false
                        end
                   else true) = true).
  { destruct Hprev as [-> | (a & -> & Ha)]; [reflexivity|].
    apply Z.eqb_neq in Ha. rewrite Ha. destruct (String.eqb _ _); reflexivity. }
  destruct c as [|c].
  - unfold attempt_events.
    destruct (confirmed env m); cbn -[wrong_password_label];
      rewrite Hhead; cbn; apply no_dialog_no_complaint; exact Htail.
  - assert (Hm : asks_again env m = true) by (apply Hagain; lia).
    apply asks_again_true in Hm. destruct Hm as [Hc Hs].
    unfold attempt_events. rewrite Hc. cbn -[wrong_password_label attempts_from].
    rewrite Hhead. cbn -[wrong_password_label attempts_from].
    apply IH.
    + intros k Hk1 Hk2. apply Hagain; lia.
    + right. eexists. split; [reflexivity | exact Hs].
    + exact Htail.
Qed.

Section Click.

Variable env : Env.

(** X6: the passwords piped to sudo are exactly the passwords of the
    dialogs that were confirmed, in the order they were typed; each of them
    goes to a child of its own, started as sudo -S echo hello; a cancelled
    dialog starts no child, and on Windows there is neither dialog nor
    child. *)
Theorem sudo_is_fed_what_was_typed (fuel : nat) (w : ProgressWindow V) :
  let tr := trace_of (afterPushButtonPressed env fuel w) in
  omap communicated tr = omap typed (omap dialog_shown tr) /\
  omap popen_call tr
    = map (fun _ => ["sudo"; "-S"; "echo"; "hello"]) (omap communicated tr) /\
  (os_type env = OS_WINDOWS env ->
     omap dialog_shown tr = [] /\ omap popen_call tr = []).
Proof.
  intros tr. subst tr.
  destruct (after_shapes env fuel w)
    as [[Hos Hr] | [(Hos & n & _ & _ & Hr) | [(Hos & n & w' & tr & _ & _
          & Hr & _ & _ & _ & _ & Htr) | (Hos & _ & Hr)]]];
    rewrite Hr; unfold trace_of; cbn [snd].
  - repeat split.
  - rewrite !omap_app, attempts_dialogs.
    destruct (attempts_communicated env (S n) 0) as [Hc Hp].
    rewrite Hc, Hp. cbn [omap list_omap communicated popen_call dialog_shown].
    rewrite !app_nil_r. repeat split; congruence.
  - rewrite !omap_app, attempts_dialogs.
    destruct (attempts_communicated env (S n) 0) as [Hc Hp].
    rewrite Hc, Hp.
    destruct Htr as [-> | ->];
      cbn [omap list_omap communicated popen_call dialog_shown];
      rewrite !app_nil_r; repeat split; congruence.
  - rewrite attempts_dialogs.
    destruct (attempts_communicated env (S fuel) 0) as [Hc Hp].
    rewrite Hc, Hp. repeat split; congruence.
Qed.

(** X7: the dialog that says 'Wrong Password!' is shown only right after a
    sudo child has exited with a status other than 0; the first dialog never
    says it. *)
Theorem wrong_password_only_after_rejection (fuel : nat)
  (w : ProgressWindow V) :
  prompts_follow_rejections None
    (trace_of (afterPushButtonPressed env fuel w)) = true.
Proof.
  destruct (after_shapes env fuel w)
    as [[Hos Hr] | [(Hos & n & _ & [Hb _] & Hr) | [(Hos & n & w' & tr & _
          & [Hb _] & Hr & _ & _ & _ & _ & Htr) | (Hos & Hall & Hr)]]];
    rewrite Hr; unfold trace_of; cbn [snd].
  - reflexivity.
  - apply attempts_follow_rejections; [|left; reflexivity|reflexivity].
    intros k _ Hk. apply Hb. lia.
  - apply attempts_follow_rejections; [|left; reflexivity|].
    + intros k _ Hk. apply Hb. lia.
    + destruct Htr as [-> | ->]; reflexivity.
  - rewrite <- (app_nil_r (attempts_from env 0 (S fuel))).
    apply attempts_follow_rejections; [|left; reflexivity|reflexivity].
    intros k _ Hk. apply Hall. lia.
Qed.

(** X8: afterPushButtonPressed never talks to aria2 and never writes to the
    add-link table; to temp_db it writes at most once, the record that
    cancels the shutdown of its own gid, and never in a call that starts a
    thread. *)
Theorem after_button_leaves_aria2_alone (fuel : nat) (w : ProgressWindow V) :
  let tr := trace_of (afterPushButtonPressed env fuel w) in
  Forall (fun e => is_rpc e = false) tr /\
  omap add_link_write tr = [] /\
  (omap single_table_write tr = [] \/
   omap single_table_write tr = [shutdown_canceled_dict (gid w)] /\
   omap thread_start tr = []).
Proof.
  intros tr. subst tr.
  assert (Hq : forall c,
            Forall (fun e => is_rpc e = false) (attempts_from env 0 c) /\
            omap add_link_write (attempts_from env 0 c) = [] /\
            omap single_table_write (attempts_from env 0 c) = []).
  { intros c. pose proof (attempts_quiet env c 0) as Hall.
    split; [|split].
    - eapply Forall_impl; [exact Hall|]. intros e [He _]. exact He.
    - induction Hall as [|e l [_ He] _ IH]; [reflexivity|].
      destruct e; try discriminate; exact IH.
    - induction Hall as [|e l [_ He] _ IH]; [reflexivity|].
      destruct e; try discriminate; exact IH. }
  destruct (after_shapes env fuel w)
    as [[Hos Hr] | [(Hos & n & _ & _ & Hr) | [(Hos & n & w' & tr & _ & _
          & Hr & _ & _ & _ & _ & Htr) | (Hos & _ & Hr)]]];
    rewrite Hr; unfold trace_of; cbn [snd].
  - split; [repeat constructor|]. split; [reflexivity | left; reflexivity].
  - destruct (Hq (S n)) as (H1 & H2 & H3).
    rewrite Forall_app, !omap_app, H2, H3.
    split; [split; [exact H1 | repeat constructor]|].
    split; [reflexivity | left; reflexivity].
  - destruct (Hq (S n)) as (H1 & H2 & H3).
    rewrite Forall_app, !omap_app, H2, H3, attempts_no_thread.
    destruct Htr as [-> | ->].
    + split; [split; [exact H1 | constructor]|].
      split; [reflexivity | left; reflexivity].
    + split; [split; [exact H1 | repeat constructor]|].
      split; [reflexivity | right; split; reflexivity].
  - destruct (Hq (S fuel)) as (H1 & H2 & H3).
    rewrite H2, H3. split; [exact H1|].
    split; [reflexivity | left; reflexivity].
Qed.

(** X9: off Windows, when a prompt is cancelled while after_checkBox is
    checked and its toggled signal is connected, the call returns having
    unchecked the box, disabled after_frame and after_pushButton, and
    written, as its last act, the record that cancels the shutdown; with
    the box already unchecked it writes nothing. *)
Theorem cancelling_the_password_cancels_the_shutdown (n fuel : nat)
  (w : ProgressWindow V) :
  os_type env <> OS_WINDOWS env ->
  cancelled_at env n -> (n <= fuel)%nat ->
  after_checkBox_toggled (connections w) = true ->
  let r := afterPushButtonPressed env fuel w in
  outcome_of r = Returns tt /\
  after_checkBox_checked (ui (window_of r)) = false /\
  after_pushButton_enabled (ui (window_of r)) = false /\
  (after_checkBox_checked (ui w) = true ->
     after_frame_enabled (ui (window_of r)) = false /\
     omap single_table_write (trace_of r)
       = [shutdown_canceled_dict (gid w)] /\
     last (trace_of r)
       = Some (EvUpdateSingleTable (shutdown_canceled_dict (gid w)))) /\
  (after_checkBox_checked (ui w) = false ->
     window_of r = button_off w /\
     omap single_table_write (trace_of r) = []).
Proof.
  intros Hos Hcan Hn Hconn r. subst r.
  rewrite (after_cancelled env n fuel w Hos Hcan Hn), uncheck_eq.
  change (after_checkBox_checked (ui (button_off w)))
    with (after_checkBox_checked (ui w)).
  change (after_checkBox_toggled (connections (button_off w)))
    with (after_checkBox_toggled (connections w)).
  rewrite Hconn.
  assert (Hq : omap single_table_write (attempts_from env 0 (S n)) = []).
  { pose proof (attempts_quiet env (S n) 0) as Hall.
    induction Hall as [|e l [_ He] _ IH]; [reflexivity|].
    destruct e; try discriminate; exact IH. }
  destruct (after_checkBox_checked (ui w)) eqn:Hbox;
    unfold outcome_of, window_of, trace_of; cbn [fst snd];
    (split; [reflexivity|]); (split; [first [reflexivity | exact Hbox]|]);
    (split; [reflexivity|]); split; try discriminate; intros _.
  - split; [reflexivity|]. rewrite omap_app, Hq, last_snoc.
    split; reflexivity.
  - split; [reflexivity|]. rewrite app_nil_r. exact Hq.
Qed.

(** X10: whatever thread a click starts runs shutDown for the window's own
    gid; on Windows without a password, elsewhere with the password of the
    first dialog that sudo accepted. *)
Theorem shutdown_runs_with_the_accepted_password (fuel : nat)
  (w : ProgressWindow V) (t : ShutDownThread) :
  t ∈ omap thread_start (trace_of (afterPushButtonPressed env fuel w)) ->
  shutDown_gid (ShutDownThread_run t) = gid w /\
  t ∈ threadPool
        (parent (window_of (afterPushButtonPressed env fuel w))) /\
  (os_type env = OS_WINDOWS env ->
     shutDown_password (ShutDownThread_run t) = None) /\
  (os_type env <> OS_WINDOWS env ->
     exists n, (n <= fuel)%nat /\ accepted_at env n /\
       shutDown_password (ShutDownThread_run t) = Some (entered env n)).
Proof.
  destruct (after_shapes env fuel w)
    as [[Hos Hr] | [(Hos & n & Hn & Hacc & Hr) | [(Hos & n & w' & tr & _ & _
          & Hr & _ & _ & _ & _ & Htr) | (Hos & _ & Hr)]]];
    rewrite Hr; unfold trace_of, window_of; cbn [fst snd];
    rewrite ?omap_app, ?attempts_no_thread; intros Hin.
  - apply list_elem_of_singleton in Hin. subst t.
    split; [reflexivity|]. split; [|split; [reflexivity | congruence]].
    cbn. apply elem_of_app. right. apply list_elem_of_singleton. reflexivity.
  - apply list_elem_of_singleton in Hin. subst t.
    split; [reflexivity|]. split; [|split; [congruence|]].
    + cbn. apply elem_of_app. right. apply list_elem_of_singleton.
      reflexivity.
    + intros _. exists n. repeat split; try assumption; apply Hacc.
  - destruct Htr as [-> | ->]; inversion Hin.
  - inversion Hin.
Qed.

End Click.

(** The push buttons, check boxes and keys. *)



(** X12: in no status do resume and pause both call aria2, and with the
    status None that the constructor leaves, or any other status than
    'paused' and 'downloading', neither does; stopPushButtonPressed stops
    the download in every status. *)
Theorem pause_and_resume_exclude_each_other (env : Env)
  (w : ProgressWindow V) :
  (omap unpause_call (trace_of (resumePushButtonPressed env w)) = [] \/
   omap pause_call (trace_of (pausePushButtonPressed env w)) = []) /\
  (status w <> PyStr "paused" -> status w <> PyStr "downloading" ->
     resumePushButtonPressed env w = (Returns tt, w, []) /\
     pausePushButtonPressed env w = (Returns tt, w, [])) /\
  omap stop_call (trace_of (stopPushButtonPressed env w)) = [gid w].
Proof.
  rewrite resume_runs, pause_runs, stop_runs. unfold trace_of. cbn [snd].
  split; [|split].
  - destruct (status w) as [| b | z | s]; try (left; reflexivity).
    cbn [py_eq_str].
    destruct (String.eqb_spec s "paused") as [-> | Hs];
      [right; reflexivity | left; reflexivity].
  - intros Hp Hd. apply py_eq_str_false in Hp, Hd. rewrite Hp, Hd.
    split; reflexivity.
  - cbn. destruct (py_eq_str (downloadStop env (gid w)) "None");
      [destruct (py_eq_str (aria2Version env) "did not respond")|];
      reflexivity.
Qed.

(** X16: changeIcon gives the three buttons the icons ':/<icons>/play',
    ':/<icons>/pause' and ':/<icons>/stop', with str() of its argument for
    <icons>; it calls nothing outside, changes no other widget, and of two
    calls in a row the second one decides. *)
Theorem changeIcon_last_call_decides (first second : PyVal)
  (w : ProgressWindow V) :
  let once := changeIcon second w in
  let twice := changeIcon second (window_of (changeIcon first w)) in
  outcome_of once = Returns tt /\ trace_of once = [] /\
  window_of twice = window_of once /\
  resume_pushButton_icon (ui (window_of once))
    = (":/" +:+ py_str second +:+ "/") +:+ "play" /\
  pause_pushButton_icon (ui (window_of once))
    = (":/" +:+ py_str second +:+ "/") +:+ "pause" /\
  stop_pushButton_icon (ui (window_of once))
    = (":/" +:+ py_str second +:+ "/") +:+ "stop" /\
  window_of once
    = with_ui
        (fun u =>
           set_stop_pushButton_icon (stop_pushButton_icon (ui (window_of once)))
             (set_pause_pushButton_icon
                (pause_pushButton_icon (ui (window_of once)))
                (set_resume_pushButton_icon
                   (resume_pushButton_icon (ui (window_of once))) u))) w.
Proof.
  intros once twice. subst once twice.
  unfold changeIcon. step_handler. repeat split.
Qed.

End HandlersMore.


(** ** The whole class, over any sequence of calls *)

Section ClassMore.

Context {V : Type} `{EqDecision V}.
Variable str_of_value : V -> string.
Variable float_of_string : string -> option V.

Lemma quiet_writes (g : string) (l : list Event) :
  Forall (fun e => is_rpc e = false /\ is_db_write e = false) l ->
  Forall (writes_only g) l.
Proof.
  intros Hl. eapply Forall_impl; [exact Hl|].
  intros e [_ He]. destruct e; try discriminate; exact I.
Qed.

Ltac solve_writes :=
  repeat first [ constructor | eexists; reflexivity ].

Lemma call_frame (env : Env) (fuel : nat) (m : Method)
  (w : ProgressWindow V) :
  status (window_of (call str_of_value env fuel m w)) = status w /\
  Forall (writes_only (gid w)) (trace_of (call str_of_value env fuel m w)).
Proof.
  destruct m; cbn [call].
  - rewrite resume_runs. split; [reflexivity|].
    unfold trace_of; cbn [snd]. repeat case_match; solve_writes.
  - rewrite pause_runs. split; [reflexivity|].
    unfold trace_of; cbn [snd]. repeat case_match; solve_writes.
  - rewrite stop_runs. split; [reflexivity|].
    unfold trace_of; cbn [snd]. repeat case_match; solve_writes.
  - unfold limitCheckBoxToggled. step_handler.
    destruct (limit_checkBox_checked (ui w)); cbn;
      [|destruct (py_eq_str (status w) "scheduled"); cbn];
      (split; [reflexivity|]); solve_writes.
  - split; [reflexivity | constructor].
  - split; [reflexivity | constructor].
  - unfold afterCheckBoxToggled. step_handler.
    destruct (after_checkBox_checked (ui w)); cbn;
      (split; [reflexivity|]); solve_writes.
  - destruct (after_shapes env fuel w)
      as [[_ Hr] | [(_ & n & _ & _ & Hr) | [(_ & n & w' & tr & _ & _
            & Hr & _ & _ & _ & Hs & Htr) | (_ & _ & Hr)]]];
      rewrite Hr; unfold trace_of, window_of; cbn [fst snd];
      (split; [first [exact Hs | reflexivity]|]);
      rewrite ?Forall_app; repeat split;
      try (apply quiet_writes, attempts_quiet);
      try destruct Htr as [-> | ->]; solve_writes.
  - rewrite limit_button_runs. split; [reflexivity|].
    unfold trace_of; cbn [snd].
    destruct (py_eq_str (status w) "scheduled"); solve_writes.
  - split; [reflexivity | constructor].
  - unfold keyPressEvent, close, closeEvent. step_handler.
    destruct (key =? Key_Escape); cbn; (split; [reflexivity|]);
      solve_writes.
  - split; [reflexivity|]. solve_writes.
Qed.

Lemma run_frame (steps : list Step) :
  forall w : ProgressWindow V,
    (outcome_of (run str_of_value steps w) = Returns tt ->
     status (window_of (run str_of_value steps w))
       = last_status steps (status w)) /\
    Forall (writes_only (gid w)) (trace_of (run str_of_value steps w)).
Proof.
  induction steps as [|[env fuel m | v] steps IH]; intros w;
    cbn [run last_status].
  - split; [reflexivity | constructor].
  - destruct (call_frame env fuel m w) as [Hs Hw].
    destruct (call_keeps_gid str_of_value env fuel m w) as [Hg _].
    destruct (call str_of_value env fuel m w) as [[o w1] t1].
    unfold window_of, trace_of in Hs, Hw, Hg. cbn [fst snd] in Hs, Hw, Hg.
    destruct o as [[] | e |];
      [| split; [discriminate | exact Hw] | split; [discriminate | exact Hw]].
    destruct (IH w1) as [Hs2 Hw2].
    destruct (run str_of_value steps w1) as [[o2 w2] t2].
    unfold outcome_of, window_of, trace_of in *. cbn [fst snd] in *.
    rewrite Hs, Hg in *. split; [exact Hs2|].
    apply Forall_app. split; assumption.
  - apply (IH (set_status v w)).
Qed.

(** X13: no method assigns self.status: a call leaves it as it was, and
    after a sequence of calls and outside assignments that has returned,
    the status is the one assigned last, or the initial one when there was
    no assignment. *)
Theorem status_is_assigned_only_from_outside (steps : list Step)
  (w : ProgressWindow V) :
  (forall env fuel m (w0 : ProgressWindow V),
     status (window_of (call str_of_value env fuel m w0)) = status w0) /\
  (outcome_of (run str_of_value steps w) = Returns tt ->
   status (window_of (run str_of_value steps w))
     = last_status steps (status w)).
Proof.
  split.
  - intros env fuel m w0. apply call_frame.
  - apply run_frame.
Qed.

(** X14: over any sequence of calls, whatever the outside answers, the
    window writes only two kinds of record: to temp_db the record
    {'gid': gid, 'shutdown': 'canceled'}, so never 'wait' or 'shutdown',
    and to the add-link table a list of one record
    {'gid': gid, 'limit_value': value}. *)
Theorem only_two_records_are_written (steps : list Step)
  (w : ProgressWindow V) :
  let tr := trace_of (run str_of_value steps w) in
  Forall (writes_only (gid w)) tr /\
  (forall d, d ∈ omap single_table_write tr ->
     d !! "gid" = Some (gid w) /\ d !! "shutdown" = Some "canceled" /\
     dom d = ({["gid"; "shutdown"]} : gset string)) /\
  (forall ds, ds ∈ omap add_link_write tr ->
     exists d, ds = [d] /\ d !! "gid" = Some (gid w) /\
       dom d = ({["gid"; "limit_value"]} : gset string)).
Proof.
  intros tr. subst tr.
  destruct (run_frame steps w) as [_ Hw].
  split; [exact Hw|].
  rewrite Forall_forall in Hw. split.
  - intros d Hd. apply list_elem_of_omap in Hd.
    destruct Hd as (e & He & Hd). specialize (Hw e He).
    destruct e; try discriminate. cbn in Hd, Hw.
    injection Hd as <-. subst dict. apply shutdown_canceled_dict_lookup.
  - intros ds Hd. apply list_elem_of_omap in Hd.
    destruct Hd as (e & He & Hd). specialize (Hw e He).
    destruct e; try discriminate. cbn in Hd, Hw.
    injection Hd as <-. destruct Hw as [value ->].
    eexists. split; [reflexivity|].
    split; apply limit_value_dict_lookup.
Qed.

(** X15: a limit saved as a number and a unit comes back by halves. The
    constructor puts the number into limit_spinBox but leaves limit_comboBox
    as the UI built it, so when the limit button is pressed on the new
    window the number is sent to aria2 with the unit the selector shows,
    'K' for 'KiB/s' and 'M' otherwise, whatever unit was saved. *)
Theorem saved_unit_is_not_restored (env : Env) (parent0 : MainWindow)
  (gid0 : string) (ui0 : Widgets V) (d : gmap string PyVal) (x : V)
  (unit : Ascii.ascii) :
  searchGidInAddLinkTable env gid0 = Some d ->
  d !! "limit_value" = Some (PyStr (str_of_value x +:+ String unit "")) ->
  str_of_value x +:+ String unit "" <> "0" ->
  float_of_string (str_of_value x) = Some x ->
  let w := window_of
             (ProgressWindow_init float_of_string env parent0 gid0 ui0) in
  limit_spinBox_value (ui w) = x /\
  limit_comboBox_currentText (ui w) = limit_comboBox_currentText ui0 /\
  trace_of (limitPushButtonPressed str_of_value w)
    = [EvLimitSpeed gid0
         (str_of_value x +:+
          (if decide (limit_comboBox_currentText ui0 = "KiB/s")
           then "K" else "M"))].
Proof.
  intros Hsearch Hlookup Hne Hfl w. subst w.
  rewrite init_unfold, Hsearch, Hlookup. cbn [py_str].
  destruct (restore_limit_runs float_of_string (str_of_value x) unit x
              (before_restore parent0 gid0 ui0) Hne Hfl)
    as (w' & Hr & _ & Hg & Hs & _ & Hx & _ & _ & Ht).
  rewrite Hr. unfold window_of. cbn [fst snd].
  assert (Hx' : limit_spinBox_value (ui (after_restore env w')) = x)
    by exact Hx.
  assert (Ht' : limit_comboBox_currentText (ui (after_restore env w'))
                = limit_comboBox_currentText ui0) by exact Ht.
  assert (Hs' : status (after_restore env w') = PyNone) by exact Hs.
  assert (Hg' : gid (after_restore env w') = gid0) by exact Hg.
  split; [exact Hx'|]. split; [exact Ht'|].
  rewrite limit_button_runs. unfold trace_of, spec_limit_value. cbn [snd].
  rewrite Hs', Hg', Hx', Ht'. reflexivity.
Qed.

End ClassMore.

(** ** The added properties at work on the concrete windows *)

(** The integer 0 as stored limit: the constructor returns and leaves the
    spin box alone. *)
Lemma constructor_without_limit_witness :
  searchGidInAddLinkTable stubborn "gid01"
    = Some (<["limit_value" := PyInt 0]> ∅) /\
  outcome_of
    (ProgressWindow_init sample_float stubborn (mkMainWindow []) "gid01"
       fresh_ui)
    = Returns tt /\
  limit_spinBox_value
    (ui (window_of
           (ProgressWindow_init sample_float stubborn (mkMainWindow [])
              "gid01" fresh_ui)))
    = 0.
Proof.
  split; [reflexivity|].
  destruct (constructor_without_limit sample_float stubborn
              (mkMainWindow []) "gid01" fresh_ui
              (<["limit_value" := PyInt 0]> ∅) (PyInt 0)
              eq_refl eq_refl eq_refl)
    as (Ho & _ & Hx & _).
  split; [exact Ho | exact Hx].
Defined.

(** A window reopened from the settings that closing [sample_window]
    wrote has its size and position. *)
Lemma geometry_survives_reopening_witness :
  outcome_of
    (ProgressWindow_init sample_float reopened (mkMainWindow []) "gid01"
       fresh_ui)
    = Returns tt /\
  window_size
    (ui (window_of
           (ProgressWindow_init sample_float reopened (mkMainWindow [])
              "gid01" fresh_ui)))
    = window_size (ui (sample_window PyNone)) /\
  window_pos
    (ui (window_of
           (ProgressWindow_init sample_float reopened (mkMainWindow [])
              "gid01" fresh_ui)))
    = window_pos (ui (sample_window PyNone)).
Proof.
  assert (Hret : outcome_of
                   (ProgressWindow_init sample_float reopened
                      (mkMainWindow []) "gid01" fresh_ui) = Returns tt)
    by (vm_compute; reflexivity).
  split; [exact Hret|].
  destruct (geometry_survives_reopening sample_float reopened
              (mkMainWindow []) "gid01" fresh_ui Hret) as (_ & _ & Hold).
  exact (Hold (sample_window PyNone) eq_refl eq_refl).
Defined.

(** The user of [gives_up] cancels the second prompt with the box checked:
    the cancellation is written. *)
Lemma cancelling_the_password_cancels_the_shutdown_witness :
  cancelled_at gives_up 1 /\
  omap single_table_write
    (trace_of (afterPushButtonPressed gives_up 1 (sample_window PyNone)))
    = [shutdown_canceled_dict "gid01"] /\
  after_frame_enabled
    (ui (window_of
           (afterPushButtonPressed gives_up 1 (sample_window PyNone))))
    = false.
Proof.
  assert (Hos : os_type gives_up <> OS_WINDOWS gives_up) by discriminate.
  assert (Hcan : cancelled_at gives_up 1).
  { split; [|reflexivity].
    intros k Hk. destruct k as [|k]; [reflexivity | lia]. }
  split; [exact Hcan|].
  destruct (cancelling_the_password_cancels_the_shutdown gives_up 1 1
              (sample_window PyNone) Hos Hcan (le_n 1) eq_refl)
    as (_ & _ & _ & Hchecked & _).
  destruct (Hchecked eq_refl) as (Hframe & Hwrite & _).
  split; [exact Hwrite | exact Hframe].
Defined.

(** The thread started for the user of [third_time_lucky] runs shutDown
    with the password typed at the third prompt. *)
Lemma shutdown_runs_with_the_accepted_password_witness :
  mkShutDownThread "gid01" (Some "s3cret") true
    ∈ omap thread_start
        (trace_of
           (afterPushButtonPressed third_time_lucky 2
              (sample_window PyNone))) /\
  shutDown_gid
    (ShutDownThread_run (mkShutDownThread "gid01" (Some "s3cret") true))
    = gid (sample_window PyNone).
Proof.
  assert (Hin : mkShutDownThread "gid01" (Some "s3cret") true
                  ∈ omap thread_start
                      (trace_of
                         (afterPushButtonPressed third_time_lucky 2
                            (sample_window PyNone))))
    by (vm_compute; constructor).
  split; [exact Hin|].
  destruct (shutdown_runs_with_the_accepted_password third_time_lucky 2
              (sample_window PyNone)
              (mkShutDownThread "gid01" (Some "s3cret") true) Hin)
    as (Hg & _).
  exact Hg.
Defined.

(** The limit '2M', reopened with a selector that shows 'KiB/s', is sent
    again as '2K'. *)
Lemma saved_unit_is_not_restored_witness :
  searchGidInAddLinkTable gives_up "gid01"
    = Some (<["limit_value" := PyStr "2M"]> ∅) /\
  trace_of
    (limitPushButtonPressed sample_str
       (window_of
          (ProgressWindow_init sample_float gives_up (mkMainWindow [])
             "gid01" fresh_ui)))
    = [EvLimitSpeed "gid01" "2K"].
Proof.
  split; [reflexivity|].
  destruct (saved_unit_is_not_restored sample_str sample_float gives_up
              (mkMainWindow []) "gid01" fresh_ui
              (<["limit_value" := PyStr "2M"]> ∅) 2 "M"%char
              eq_refl eq_refl ltac:(discriminate) eq_refl)
    as (_ & _ & Htr).
  exact Htr.
Defined.
